(** * azure-extensions-cli: the [replication-status] and [unpublish-version]
    commands, their flag checks, certificate loading and manifest template.

    The commands of [main.go], [replicationstatus.go] and [unpublish.go] are
    embedded as programs of a small command monad [M]: a program reads the
    logger configuration, appends to a trace of observable events (file
    reads, writes to the standard streams, remote calls and their returns)
    and either returns a value or exits the process, as [log.Fatalf] does.
    Everything the commands obtain from outside the three files (the
    filesystem, the PEM and PKCS#12 codecs, the Azure client, the JSON
    encoder and the table writer) is a field of the record [World]. *)

From Stdlib Require Import Ascii.
From stdpp Require Import base option list strings gmap.

(** ** Byte strings

    A Go [string] and a Go [[]byte] are both sequences of bytes; both are
    [string] here. *)

Definition dquote : ascii := ascii_of_nat 34.
Definition backslash : ascii := ascii_of_nat 92.

Definition bytes := string.

(** A Go [error] is represented by the text [err.Error()] returns, which is
    also what the verb [%v] prints. *)
Definition error := string.

Inductive result (A : Type) : Type :=
| Ok (a : A)
| Err (e : error).
Arguments Ok {A} a.
Arguments Err {A} e.

(** [strconv.Quote], which the verb [%q] applies to a string: the text
    between double quotes, with a backslash before a double quote or a
    backslash.  The escapes of non-printable bytes are left out: the
    commands only quote the names of their flags. *)
Fixpoint quote_body (s : string) : string :=
  match s with
  | EmptyString => EmptyString
  | String c s' =>
      if decide (c = dquote) then String backslash (String c (quote_body s'))
      else if decide (c = backslash) then String backslash (String c (quote_body s'))
      else String c (quote_body s')
  end.

Definition strconv_Quote (s : string) : string :=
  String dquote (quote_body s +:+ String dquote EmptyString).

(** ** The command line: [cli.Context] and the flags of [main.go] *)

(** [cli.StringFlag] and [cli.BoolFlag]; a default [Value] is already in the
    parsed command line. *)
Record StringFlag := { Name : string; Usage : string; EnvVar : string }.
Record BoolFlag := { BoolFlag_Name : string; BoolFlag_Usage : string }.

Definition flMgtURL : StringFlag :=
  {| Name := "management-url";
     Usage := "Azure Management URL for a non-public Azure cloud";
     EnvVar := "MANAGEMENT_URL" |}.
Definition flSubsID : StringFlag :=
  {| Name := "subscription-id";
     Usage := "Subscription ID for the publisher subscription";
     EnvVar := "SUBSCRIPTION_ID" |}.
Definition flSubsCert : StringFlag :=
  {| Name := "subscription-cert";
     Usage := "Path of subscription management certificate (.pem or .pfx) file";
     EnvVar := "SUBSCRIPTION_CERT" |}.
Definition flVersion : StringFlag :=
  {| Name := "version";
     Usage := "Version of the extension package e.g. 1.0.0";
     EnvVar := EmptyString |}.
Definition flNamespace : StringFlag :=
  {| Name := "namespace";
     Usage := "Publisher namespace e.g. Microsoft.Azure.Extensions";
     EnvVar := "EXTENSION_NAMESPACE" |}.
Definition flName : StringFlag :=
  {| Name := "name";
     Usage := "Name of the extension e.g. FooExtension";
     EnvVar := "EXTENSION_NAME" |}.
Definition flJSON : BoolFlag :=
  {| BoolFlag_Name := "json"; BoolFlag_Usage := "Print output as JSON" |}.
Definition flIsXMLExtension : BoolFlag :=
  {| BoolFlag_Name := "is-xml-extension";
     BoolFlag_Usage := "Set if this is an XML extension, i.e. PaaS" |}.

(** The parsed command line a command's action receives.  [c.String(name)]
    is the value of the flag, after defaults and environment variables, and
    the empty string for a flag that has none; [c.Bool(name)] is false for a
    flag that was not given. *)
Record Context := {
  stringFlags : gmap string string;
  boolFlags : gmap string bool
}.

Definition Context_String (c : Context) (name : string) : string :=
  default EmptyString (stringFlags c !! name).

Definition Context_Bool (c : Context) (name : string) : bool :=
  default false (boolFlags c !! name).

(** ** The logger (logrus) and the observable events *)

Inductive Level :=
| PanicLevel | FatalLevel | ErrorLevel | WarnLevel | InfoLevel | DebugLevel.

Definition level_rank (l : Level) : nat :=
  match l with
  | PanicLevel => 0 | FatalLevel => 1 | ErrorLevel => 2
  | WarnLevel => 3 | InfoLevel => 4 | DebugLevel => 5
  end.

Inductive stream := Stdout | Stderr.

#[global] Instance stream_eq_dec : EqDecision stream.
Proof. solve_decision. Defined.

Record Logger := { level : Level; out : stream }.

(** logrus's standard logger before [init] runs. *)
Definition std : Logger := {| level := InfoLevel; out := Stderr |}.

(** The remote resource model, as far as the commands look into it: the
    declarations of [ReplicationStatusResponse] and of its element type are in
    the client's file; the fields are those the commands read. *)
Record ReplicationStatus := { Location : string; Status : string }.
Record ReplicationStatusResponse := { Statuses : list ReplicationStatus }.

Inductive request :=
| ReqGetReplicationStatus (ns name version : string)
| ReqUpdateExtension (body : bytes)
| ReqWaitForOperation (op : string).

Inductive response :=
| RespGetReplicationStatus (r : result ReplicationStatusResponse)
| RespUpdateExtension (r : result string)
| RespWaitForOperation (r : option error).

(** What is written to a stream: a log entry (level, fields, message), which
    the logger's formatter renders, or raw data. *)
Inductive payload :=
| LogEntry (lvl : Level) (fields : list (string * string)) (msg : string)
| Data (b : bytes).

Inductive event :=
| EvReadFile (path : string)
| EvWrite (s : stream) (p : payload)
| EvCall (r : request)
| EvReturn (r : response).

(** ** The command monad *)

Inductive outcome (A : Type) : Type :=
| Ret (a : A)
| Exit (code : Z).
Arguments Ret {A} a.
Arguments Exit {A} code.

Definition M (A : Type) : Type := Logger -> outcome A * Logger * list event.

Definition ret {A} (a : A) : M A := fun lg => (Ret a, lg, []).

Definition bind {A B} (m : M A) (k : A -> M B) : M B :=
  fun lg =>
    match m lg with
    | (Ret a, lg1, t1) =>
        match k a lg1 with
        | (o, lg2, t2) => (o, lg2, t1 ++ t2)
        end
    | (Exit code, lg1, t1) => (Exit code, lg1, t1)
    end.

Notation "'let*' x ':=' m 'in' k" := (bind m (fun x => k))
  (at level 10, x name, m at level 100, k at level 200, only parsing).
Notation "m '>>' k" := (bind m (fun _ => k))
  (at level 100, k at level 200, right associativity, only parsing).

Definition emit (e : event) : M unit := fun lg => (Ret tt, lg, [e]).

Definition os_Exit {A} (code : Z) : M A := fun lg => (Exit code, lg, []).

Definition SetLevel (l : Level) : M unit :=
  fun lg => (Ret tt, {| level := l; out := out lg |}, []).

Definition SetOutput (s : stream) : M unit :=
  fun lg => (Ret tt, {| level := level lg; out := s |}, []).

(** An entry is written to the logger's output when the logger's level is
    at least the entry's. *)
Definition log_entry (lvl : Level) (fields : list (string * string))
    (msg : string) : M unit :=
  fun lg =>
    if decide (level_rank lvl <= level_rank (level lg))
    then (Ret tt, lg, [EvWrite (out lg) (LogEntry lvl fields msg)])
    else (Ret tt, lg, []).

(** [log.WithField(k, v)] gives an entry carrying the field; the methods
    below take the fields of the entry they are called on, none for the
    package-level functions. *)
Definition WithField (k v : string) : list (string * string) := [(k, v)].

Definition Debug (fields : list (string * string)) (msg : string) : M unit :=
  log_entry DebugLevel fields msg.

Definition Info (fields : list (string * string)) (msg : string) : M unit :=
  log_entry InfoLevel fields msg.

(** [Fatal] and [Fatalf] log at the fatal level and then call [os.Exit(1)]. *)
Definition Fatalf {A} (fields : list (string * string)) (msg : string) : M A :=
  log_entry FatalLevel fields msg >> os_Exit 1.

Definition Fatal {A} (fields : list (string * string)) (err : error) : M A :=
  log_entry FatalLevel fields err >> os_Exit 1.

Definition init : M unit :=
  SetLevel DebugLevel >> SetOutput Stderr.

(** ** The world outside the three files *)

(** [pem.Block]. *)
Record Block := {
  Type_ : string;
  Headers : list (string * string);
  Bytes : bytes
}.

Record World := {
  (** the client of the Azure management API, built by [NewClient] *)
  ExtensionsClient : Type;
  (** [ioutil.ReadFile] on the filesystem of the run *)
  ReadFile : string -> result bytes;
  (** [pem.Decode]: the next PEM block of the input, if any, and the rest *)
  pem_Decode : bytes -> option Block * bytes;
  (** [pkcs12.ToPEM data password] *)
  pkcs12_ToPEM : bytes -> string -> result (list Block);
  (** [pem.EncodeToMemory] *)
  pem_EncodeToMemory : Block -> bytes;
  NewClient : string -> string -> bytes -> result ExtensionsClient;
  GetReplicationStatus :
    ExtensionsClient -> string -> string -> string ->
    result ReplicationStatusResponse;
  UpdateExtension : ExtensionsClient -> bytes -> result string;
  WaitForOperation : ExtensionsClient -> string -> option error;
  (** [json.MarshalIndent v prefix indent] at the type of [Statuses] *)
  json_MarshalIndent :
    list ReplicationStatus -> string -> string -> result bytes;
  (** what [tablewriter]'s [Render] writes for a header and rows *)
  tablewriter_render : list string -> list (list string) -> bytes
}.

(** ** [text/template], as far as the manifest template uses it

    A template is text with actions between the delimiters [{{] and [}}];
    the only action modelled is the field reference [{{.Field}}], any other
    action is a parse error.  Executing a field reference on a struct writes
    the field's string as it is: [text/template] applies no escaping. *)

Inductive tnode :=
| TText (s : string)
| TField (name : string).

Inductive lexmode :=
| LText (acc : string)
| LBrace (acc : string)
| LAction (acc : string)
| LActionBrace (acc : string).

Definition snoc (s : string) (c : ascii) : string := s +:+ String c EmptyString.

Definition is_space (c : ascii) : bool :=
  bool_decide (c = " "%char) || bool_decide (c = "009"%char)
  || bool_decide (c = "010"%char) || bool_decide (c = "013"%char).

Definition is_alnum (c : ascii) : bool :=
  (Ascii.leb "a" c && Ascii.leb c "z") || (Ascii.leb "A" c && Ascii.leb c "Z")
  || (Ascii.leb "0" c && Ascii.leb c "9") || bool_decide (c = "_"%char).

Fixpoint ltrim (s : string) : string :=
  match s with
  | String c s' => if is_space c then ltrim s' else s
  | EmptyString => EmptyString
  end.

(** An identifier followed by spaces only. *)
Fixpoint ident_then_spaces (s : string) : option string :=
  match s with
  | EmptyString => Some EmptyString
  | String c s' =>
      if is_alnum c then
        match ident_then_spaces s' with
        | Some i => Some (String c i)
        | None => None
        end
      else if is_space c then
        match ltrim s' with EmptyString => Some EmptyString | _ => None end
      else None
  end.

Definition parse_action (s : string) : result tnode :=
  match ltrim s with
  | String "." s' =>
      match ident_then_spaces s' with
      | Some (String c i) => Ok (TField (String c i))
      | _ => Err ("unexpected action " +:+ s)
      end
  | _ => Err ("unexpected action " +:+ s)
  end.

Definition add_text (acc : string) (ns : list tnode) : list tnode :=
  match acc with
  | EmptyString => ns
  | _ => TText acc :: ns
  end.

(** The lexer reads the template byte by byte; the nodes are collected in
    reverse. *)
Fixpoint lex (m : lexmode) (ns : list tnode) (s : string) : result (list tnode) :=
  match s with
  | EmptyString =>
      match m with
      | LText acc => Ok (rev (add_text acc ns))
      | LBrace acc => Ok (rev (add_text (snoc acc "{") ns))
      | LAction _ | LActionBrace _ => Err "unclosed action"
      end
  | String c s' =>
      match m with
      | LText acc =>
          if decide (c = "{"%char) then lex (LBrace acc) ns s'
          else lex (LText (snoc acc c)) ns s'
      | LBrace acc =>
          if decide (c = "{"%char) then lex (LAction EmptyString) (add_text acc ns) s'
          else lex (LText (snoc (snoc acc "{") c)) ns s'
      | LAction acc =>
          if decide (c = "}"%char) then lex (LActionBrace acc) ns s'
          else lex (LAction (snoc acc c)) ns s'
      | LActionBrace acc =>
          if decide (c = "}"%char) then
            match parse_action acc with
            | Ok n => lex (LText EmptyString) (n :: ns) s'
            | Err e => Err e
            end
          else lex (LAction (snoc (snoc acc "}") c)) ns s'
      end
  end.

(** [template.New(name).Parse(text)] *)
Definition template_Parse (name text : string) : result (list tnode) :=
  match lex (LText EmptyString) [] text with
  | Ok ns => Ok ns
  | Err e => Err ("template: " +:+ name +:+ ": " +:+ e)
  end.

(** [tpl.Execute(&b, data)] for data with string fields, [field] giving the
    field of a name: the buffer after the execution, or the error. *)
Fixpoint template_Execute (tpl : list tnode) (field : string -> option string)
    (b : bytes) : result bytes :=
  match tpl with
  | [] => Ok b
  | TText s :: tpl' => template_Execute tpl' field (b +:+ s)
  | TField f :: tpl' =>
      match field f with
      | Some v => template_Execute tpl' field (b +:+ v)
      | None => Err ("can't evaluate field " +:+ f)
      end
  end.

(** ** [main.go]: flag checks, certificate loading, client construction *)

Section Commands.

Variable W : World.

Definition io_ReadFile (path : string) : M (result bytes) :=
  emit (EvReadFile path) >> ret (ReadFile W path).

Definition checkFlag (c : Context) (fl : string) : M string :=
  let v := Context_String c fl in
  if decide (v = EmptyString)
  then Fatalf [] ("argument " +:+ strconv_Quote fl +:+ " must be provided")
  else ret v.

(** The loop of [readCert] over the PEM blocks: each block's encoding is
    written to the buffer. *)
Definition write_blocks (buf : bytes) (pemBlocks : list Block) : bytes :=
  fold_left (fun buf x => buf +:+ pem_EncodeToMemory W x) pemBlocks buf.

Definition readCert (certFile : string) : M (result bytes) :=
  let* r := io_ReadFile certFile in
  match r with
  | Err err => ret (Err err)
  | Ok b =>
      match pem_Decode W b with
      | (Some _, _) => ret (Ok b)
      | (None, _) =>
          match pkcs12_ToPEM W b EmptyString with
          | Err err => ret (Err err)
          | Ok pemBlocks => ret (Ok (write_blocks EmptyString pemBlocks))
          end
      end
  end.

Definition mkClient (mgtURL subscriptionID certFile : string)
    : M (ExtensionsClient W) :=
  let* r := readCert certFile in
  match r with
  | Err err =>
      Fatalf [] ("Cannot read certificate " +:+ certFile +:+ ": " +:+ err)
  | Ok b =>
      match NewClient W mgtURL subscriptionID b with
      | Err err => Fatalf [] ("Cannot create client: " +:+ err)
      | Ok cl => ret cl
      end
  end.

(** The methods of the client: a call and its return are two events. *)
Definition cl_GetReplicationStatus (cl : ExtensionsClient W)
    (ns name version : string) : M (result ReplicationStatusResponse) :=
  emit (EvCall (ReqGetReplicationStatus ns name version)) >>
  let r := GetReplicationStatus W cl ns name version in
  emit (EvReturn (RespGetReplicationStatus r)) >> ret r.

Definition cl_UpdateExtension (cl : ExtensionsClient W) (data : bytes)
    : M (result string) :=
  emit (EvCall (ReqUpdateExtension data)) >>
  let r := UpdateExtension W cl data in
  emit (EvReturn (RespUpdateExtension r)) >> ret r.

Definition cl_WaitForOperation (cl : ExtensionsClient W) (op : string)
    : M (option error) :=
  emit (EvCall (ReqWaitForOperation op)) >>
  let r := WaitForOperation W cl op in
  emit (EvReturn (RespWaitForOperation r)) >> ret r.

(** ** [replicationstatus.go] *)

Definition printAsJSON (r : ReplicationStatusResponse) : M (option error) :=
  match json_MarshalIndent W (Statuses r) EmptyString "  " with
  | Err err => ret (Some ("failed to format as json: " +:+ err))
  | Ok b => emit (EvWrite Stdout (Data b)) >> ret None
  end.

(** The table writer: where it writes, its header and its rows. *)
Record Table := {
  tbl_out : stream;
  tbl_header : list string;
  tbl_rows : list (list string)
}.

Definition NewWriter (s : stream) : Table :=
  {| tbl_out := s; tbl_header := []; tbl_rows := [] |}.

Definition SetHeader (t : Table) (h : list string) : Table :=
  {| tbl_out := tbl_out t; tbl_header := h; tbl_rows := tbl_rows t |}.

Definition AppendBulk (t : Table) (rows : list (list string)) : Table :=
  {| tbl_out := tbl_out t; tbl_header := tbl_header t;
     tbl_rows := tbl_rows t ++ rows |}.

Definition Render (t : Table) : M unit :=
  emit (EvWrite (tbl_out t)
          (Data (tablewriter_render W (tbl_header t) (tbl_rows t)))).

(** The loop of [printAsTable]: one row is appended per status. *)
Definition table_data (statuses : list ReplicationStatus) : list (list string) :=
  fold_left (fun data s => data ++ [[Location s; Status s]]) statuses [].

Definition printAsTable (r : ReplicationStatusResponse) : M (option error) :=
  let table := NewWriter Stdout in
  let table := SetHeader table ["Location"; "Status"] in
  let data := table_data (Statuses r) in
  let table := AppendBulk table data in
  Render table >> ret None.

Definition replicationStatus (c : Context) : M unit :=
  let* mgtURL := checkFlag c (Name flMgtURL) in
  let* subsID := checkFlag c (Name flSubsID) in
  let* subsCert := checkFlag c (Name flSubsCert) in
  let* cl := mkClient mgtURL subsID subsCert in
  let* ns := checkFlag c (Name flNamespace) in
  let* name := checkFlag c (Name flName) in
  let* version := checkFlag c (Name flVersion) in
  let json := Context_Bool c (BoolFlag_Name flJSON) in
  Debug [] "Requesting replication status." >>
  let* r := cl_GetReplicationStatus cl ns name version in
  match r with
  | Err err => Fatalf [] ("Cannot fetch replication status: " +:+ err)
  | Ok rs =>
      let f := if json then printAsJSON else printAsTable in
      let* e := f rs in
      match e with
      | Some err => Fatal [] err
      | None => ret tt
      end
  end.

(** ** [unpublish.go] *)

Record Params := { Namespace : string; Name_ : string; Version : string }.

(** The fields of [p] as the template engine finds them by name. *)
Definition Params_field (p : Params) (f : string) : option string :=
  if decide (f = "Namespace") then Some (Namespace p)
  else if decide (f = "Name") then Some (Name_ p)
  else if decide (f = "Version") then Some (Version p)
  else None.

Definition nl : string := String "010" EmptyString.
Definition dq : string := String dquote EmptyString.

(** The text the buffer is created with. *)
Definition manifest_head : string :=
  "<?xml version=" +:+ dq +:+ "1.0" +:+ dq +:+ " encoding=" +:+ dq +:+ "utf-8"
  +:+ dq +:+ " ?>" +:+ nl +:+
  "<ExtensionImage xmlns=" +:+ dq +:+ "http://schemas.microsoft.com/windowsazure"
  +:+ dq +:+ "  xmlns:i=" +:+ dq +:+ "http://www.w3.org/2001/XMLSchema-instance"
  +:+ dq +:+ ">" +:+ nl +:+
  "  <!-- WARNING: Ordering of fields matter in this file. -->" +:+ nl +:+
  "  <ProviderNameSpace>{{.Namespace}}</ProviderNameSpace>" +:+ nl +:+
  "  <Type>{{.Name}}</Type>" +:+ nl +:+
  "  <Version>{{.Version}}</Version>" +:+ nl +:+
  "  <IsInternalExtension>true</IsInternalExtension>" +:+ nl.

Definition unpublishVersion (c : Context) : M unit :=
  let* ns := checkFlag c (Name flNamespace) in
  let* name := checkFlag c (Name flName) in
  let* version := checkFlag c (Name flVersion) in
  let p := {| Namespace := ns; Name_ := name; Version := version |} in
  let isXMLExtension := Context_Bool c (BoolFlag_Name flIsXMLExtension) in
  let buf := manifest_head in
  let buf :=
    if negb isXMLExtension
    then buf +:+ "<IsJsonExtension>true</IsJsonExtension>"
    else buf in
  let buf := buf +:+ "</ExtensionImage>" in
  match template_Parse "unregisterManifest" buf with
  | Err err => Fatalf [] ("template parse error: " +:+ err)
  | Ok tpl =>
      match template_Execute tpl (Params_field p) EmptyString with
      | Err err => Fatalf [] ("template execute error: " +:+ err)
      | Ok b =>
          let* mgtURL := checkFlag c (Name flMgtURL) in
          let* subsID := checkFlag c (Name flSubsID) in
          let* subsCert := checkFlag c (Name flSubsCert) in
          let* cl := mkClient mgtURL subsID subsCert in
          let* r := cl_UpdateExtension cl b in
          match r with
          | Err err => Fatalf [] ("UpdateExtension failed: " +:+ err)
          | Ok op =>
              let lg := WithField "x-ms-operation-id" op in
              Info lg "UpdateExtension operation started." >>
              let* e := cl_WaitForOperation cl op in
              match e with
              | Some err => Fatalf lg ("UpdateExtension failed: " +:+ err)
              | None => Info lg "UpdateExtension operation finished."
              end
          end
      end
  end.

(** A run of the program with a command: the package's [init], then the
    command's action, from logrus's standard logger. *)
Definition run (cmd : Context -> M unit) (c : Context)
    : outcome unit * list event :=
  match (init >> cmd c) std with
  | (o, _, t) => (o, t)
  end.

End Commands.

(** ** Well-formed XML

    What it means for the bytes sent to [UpdateExtension] to be a well-formed
    XML document, for the part of XML 1.0 a manifest is written in: a
    declaration or processing instructions, comments, elements with
    attributes, and character data.  Document type declarations, CDATA
    sections and references are not read: a document with a [<!D], a [<![]
    or an ampersand is rejected.  Bytes stand for characters.

    The reader is a pushdown automaton run over the bytes: every open element
    is a frame on its stack, and the document's root element is its result. *)

#[local] Unset Elimination Schemes.
Inductive node :=
| Text (s : string)
| Elem (name : string) (attrs : list (string * string)) (children : list node).
#[local] Set Elimination Schemes.

(** An open element: its name, its attributes and, in reverse, the children
    read so far. *)
Record frame := {
  fr_name : string;
  fr_attrs : list (string * string);
  fr_kids : list node
}.

Inductive xmode :=
| XText (acc : string)
| XLt
| XPIStart
| XPI (q : bool)
| XBang
| XBangDash
| XComment (dashes : nat)
| XOpenName (acc : string)
| XAttrs (name : string) (attrs : list (string * string)) (sp : bool)
| XAttrName (name : string) (attrs : list (string * string)) (acc : string)
| XAttrEq (name : string) (attrs : list (string * string)) (an : string)
| XAttrQuote (name : string) (attrs : list (string * string)) (an : string)
| XAttrVal (name : string) (attrs : list (string * string)) (an : string)
    (q : ascii) (acc : string)
| XEmptyTag (name : string) (attrs : list (string * string))
| XCloseName (acc : string)
| XCloseSp (name : string).

Record xstate := {
  xmode_of : xmode;
  stack : list frame;
  root : option node
}.

Definition is_xml_char (c : ascii) : bool :=
  Ascii.leb " " c || is_space c.

Definition is_name_start (c : ascii) : bool :=
  (Ascii.leb "a" c && Ascii.leb c "z") || (Ascii.leb "A" c && Ascii.leb c "Z")
  || bool_decide (c = "_"%char) || bool_decide (c = ":"%char).

Definition is_name_char (c : ascii) : bool :=
  is_name_start c || (Ascii.leb "0" c && Ascii.leb c "9")
  || bool_decide (c = "-"%char) || bool_decide (c = "."%char).

Fixpoint ends_with_brackets (s : string) : bool :=
  match s with
  | String "]" (String "]" EmptyString) => true
  | String _ s' => ends_with_brackets s'
  | EmptyString => false
  end.

Definition add_text_node (acc : string) (kids : list node) : list node :=
  match acc with
  | EmptyString => kids
  | _ => Text acc :: kids
  end.

(** A complete element becomes a child of the innermost open element, or the
    root. *)
Definition add_node (n : node) (stk : list frame) (r : option node)
    : option xstate :=
  match stk with
  | [] =>
      match r with
      | None => Some {| xmode_of := XText EmptyString; stack := []; root := Some n |}
      | Some _ => None
      end
  | p :: rest =>
      Some {| xmode_of := XText EmptyString;
              stack := {| fr_name := fr_name p; fr_attrs := fr_attrs p;
                          fr_kids := n :: fr_kids p |} :: rest;
              root := r |}
  end.

Definition open_elem (name : string) (attrs : list (string * string))
    (stk : list frame) (r : option node) : option xstate :=
  Some {| xmode_of := XText EmptyString;
          stack := {| fr_name := name; fr_attrs := attrs; fr_kids := [] |} :: stk;
          root := r |}.

Definition close_elem (name : string) (stk : list frame) (r : option node)
    : option xstate :=
  match stk with
  | [] => None
  | f :: rest =>
      if decide (fr_name f = name)
      then add_node (Elem name (fr_attrs f) (rev (fr_kids f))) rest r
      else None
  end.

Definition has_attr (an : string) (attrs : list (string * string)) : bool :=
  existsb (fun a => bool_decide (a.1 = an)) attrs.

Definition xstep (st : xstate) (c : ascii) : option xstate :=
  let stk := stack st in
  let r := root st in
  let go m := Some {| xmode_of := m; stack := stk; root := r |} in
  if negb (is_xml_char c) then None else
  match xmode_of st with
  | XText acc =>
      if decide (c = "<"%char) then
        match stk with
        | [] => go XLt
        | f :: rest =>
            Some {| xmode_of := XLt;
                    stack := {| fr_name := fr_name f; fr_attrs := fr_attrs f;
                                fr_kids := add_text_node acc (fr_kids f) |} :: rest;
                    root := r |}
        end
      else if decide (c = "&"%char) then None
      else if decide (c = ">"%char) then
        if ends_with_brackets acc then None else
        match stk with
        | [] => None
        | _ => go (XText (snoc acc c))
        end
      else
        match stk with
        | [] => if is_space c then go (XText EmptyString) else None
        | _ => go (XText (snoc acc c))
        end
  | XLt =>
      if decide (c = "?"%char) then go XPIStart
      else if decide (c = "!"%char) then go XBang
      else if decide (c = "/"%char) then
        match stk with [] => None | _ => go (XCloseName EmptyString) end
      else if is_name_start c then
        match stk, r with
        | [], Some _ => None
        | _, _ => go (XOpenName (String c EmptyString))
        end
      else None
  | XPIStart => if is_name_start c then go (XPI false) else None
  | XPI q =>
      if decide (c = "?"%char) then go (XPI true)
      else if decide (c = ">"%char) then
        if q then go (XText EmptyString) else go (XPI false)
      else go (XPI false)
  | XBang => if decide (c = "-"%char) then go XBangDash else None
  | XBangDash => if decide (c = "-"%char) then go (XComment 0) else None
  | XComment 0 =>
      if decide (c = "-"%char) then go (XComment 1) else go (XComment 0)
  | XComment 1 =>
      if decide (c = "-"%char) then go (XComment 2) else go (XComment 0)
  | XComment _ =>
      if decide (c = ">"%char) then go (XText EmptyString) else None
  | XOpenName acc =>
      if is_name_char c then go (XOpenName (snoc acc c))
      else if is_space c then go (XAttrs acc [] true)
      else if decide (c = ">"%char) then open_elem acc [] stk r
      else if decide (c = "/"%char) then go (XEmptyTag acc [])
      else None
  | XAttrs name attrs sp =>
      if is_space c then go (XAttrs name attrs true)
      else if decide (c = ">"%char) then open_elem name attrs stk r
      else if decide (c = "/"%char) then go (XEmptyTag name attrs)
      else if is_name_start c && sp
      then go (XAttrName name attrs (String c EmptyString))
      else None
  | XAttrName name attrs acc =>
      if is_name_char c then go (XAttrName name attrs (snoc acc c))
      else if decide (c = "="%char) then go (XAttrQuote name attrs acc)
      else if is_space c then go (XAttrEq name attrs acc)
      else None
  | XAttrEq name attrs an =>
      if is_space c then go (XAttrEq name attrs an)
      else if decide (c = "="%char) then go (XAttrQuote name attrs an)
      else None
  | XAttrQuote name attrs an =>
      if is_space c then go (XAttrQuote name attrs an)
      else if decide (c = dquote) then go (XAttrVal name attrs an c EmptyString)
      else if decide (c = "'"%char) then go (XAttrVal name attrs an c EmptyString)
      else None
  | XAttrVal name attrs an q acc =>
      if decide (c = q) then
        if has_attr an attrs then None
        else go (XAttrs name (attrs ++ [(an, acc)]) false)
      else if decide (c = "<"%char) then None
      else if decide (c = "&"%char) then None
      else go (XAttrVal name attrs an q (snoc acc c))
  | XEmptyTag name attrs =>
      if decide (c = ">"%char) then add_node (Elem name attrs []) stk r else None
  | XCloseName acc =>
      match acc with
      | EmptyString =>
          if is_name_start c then go (XCloseName (String c EmptyString)) else None
      | _ =>
          if is_name_char c then go (XCloseName (snoc acc c))
          else if is_space c then go (XCloseSp acc)
          else if decide (c = ">"%char) then close_elem acc stk r
          else None
      end
  | XCloseSp name =>
      if is_space c then go (XCloseSp name)
      else if decide (c = ">"%char) then close_elem name stk r
      else None
  end.

Fixpoint xrun (st : xstate) (s : string) : option xstate :=
  match s with
  | EmptyString => Some st
  | String c s' =>
      match xstep st c with
      | Some st' => xrun st' s'
      | None => None
      end
  end.

Definition xinit : xstate :=
  {| xmode_of := XText EmptyString; stack := []; root := None |}.

(** The root element of a well-formed document; [None] for bytes that are
    not one. *)
Definition xml_parse (doc : bytes) : option node :=
  match xrun xinit doc with
  | Some {| xmode_of := XText _; stack := []; root := Some n |} => Some n
  | _ => None
  end.

(** The text of an element whose content is character data only. *)
Fixpoint text_content (kids : list node) : option string :=
  match kids with
  | [] => Some EmptyString
  | Text s :: kids' =>
      match text_content kids' with
      | Some t => Some (s +:+ t)
      | None => None
      end
  | Elem _ _ _ :: _ => None
  end.

(** The child elements among nodes: name and text, in document order. *)
Fixpoint child_elements (kids : list node) : list (string * option string) :=
  match kids with
  | [] => []
  | Text _ :: kids' => child_elements kids'
  | Elem name _ ks :: kids' => (name, text_content ks) :: child_elements kids'
  end.

(** The elements of an [ExtensionImage] manifest, [None] for bytes that are
    not a well-formed document with that root. *)
Definition manifest_elements (doc : bytes) : option (list (string * option string)) :=
  match xml_parse doc with
  | Some (Elem "ExtensionImage" _ kids) => Some (child_elements kids)
  | _ => None
  end.

(** ** Observations of a program and of a run *)

(** What a program returns and what it emits, from a given logger. *)
Definition value {A} (m : M A) (lg : Logger) : outcome A := (m lg).1.1.
Definition events {A} (m : M A) (lg : Logger) : list event := (m lg).2.

Definition join (l : list string) : string := foldr String.append EmptyString l.

(** The flags both commands require, and what it takes for [mkClient] to
    give the client [cl]: the three flags it is called with are given, the
    certificate is read and [NewClient] accepts it. *)
Definition given (c : Context) (fl : StringFlag) : Prop :=
  Context_String c (Name fl) <> EmptyString.

Definition client_ready (W : World) (c : Context) (cl : ExtensionsClient W)
    : Prop :=
  given c flMgtURL /\ given c flSubsID /\ given c flSubsCert /\
  exists b,
    value (readCert W (Context_String c (Name flSubsCert))) std = Ret (Ok b) /\
    NewClient W (Context_String c (Name flMgtURL))
      (Context_String c (Name flSubsID)) b = Ok cl.

Definition extension_given (c : Context) : Prop :=
  given c flNamespace /\ given c flName /\ given c flVersion.

(** The logger once [init] has run. *)
Definition configured : Logger := {| level := DebugLevel; out := Stderr |}.

(** The fatal entry of a message, and the message for a missing flag. *)
Definition fatal (fields : list (string * string)) (msg : string) : event :=
  EvWrite Stderr (LogEntry FatalLevel fields msg).

Definition missing (fl : StringFlag) : string :=
  "argument " +:+ strconv_Quote (Name fl) +:+ " must be provided".

(** The events of [replication-status] up to the answer [r] of the fetch,
    and of [unpublish-version] up to the answer [r] of the update. *)
Definition fetch_events (c : Context) (r : result ReplicationStatusResponse)
    : list event :=
  [EvReadFile (Context_String c (Name flSubsCert));
   EvWrite Stderr (LogEntry DebugLevel [] "Requesting replication status.");
   EvCall (ReqGetReplicationStatus (Context_String c (Name flNamespace))
             (Context_String c (Name flName))
             (Context_String c (Name flVersion)));
   EvReturn (RespGetReplicationStatus r)].

Definition update_events (c : Context) (body : bytes) (r : result string)
    : list event :=
  [EvReadFile (Context_String c (Name flSubsCert));
   EvCall (ReqUpdateExtension body);
   EvReturn (RespUpdateExtension r)].

#[global] Instance given_dec (c : Context) (fl : StringFlag)
  : Decision (given c fl).
Proof. unfold given. apply _. Defined.

(** The first flag of a list, in the order of the checks, that is not
    given. *)
Fixpoint first_missing (c : Context) (fls : list StringFlag)
    : option StringFlag :=
  match fls with
  | [] => None
  | fl :: fls' =>
      if decide (given c fl) then first_missing c fls' else Some fl
  end.

(** Events of the process alone: a file read or an entry on the standard
    error. *)
Definition is_local (e : event) : bool :=
  match e with
  | EvReadFile _ => true
  | EvWrite Stderr (LogEntry _ _ _) => true
  | _ => false
  end.

(** A write keeps the streams apart when it is a log entry on the standard
    error or data on the standard output. *)
Definition disciplined (e : event) : bool :=
  match e with
  | EvWrite Stderr (LogEntry _ _ _) => true
  | EvWrite Stdout (Data _) => true
  | EvWrite _ _ => false
  | _ => true
  end.

(** A run from any configuration of the logger. *)
Definition run_from (lg : Logger) (cmd : Context -> M unit) (c : Context)
    : outcome unit * list event :=
  match (init >> cmd c) lg with
  | (o, _, t) => (o, t)
  end.

(** A command polls when it calls [WaitForOperation]. *)
Definition polls (t : list event) : Prop :=
  exists op, In (EvCall (ReqWaitForOperation op)) t.

(** What was written to a stream, in order. *)
Fixpoint written (s : stream) (t : list event) : list payload :=
  match t with
  | [] => []
  | EvWrite s' p :: t' =>
      if decide (s' = s) then p :: written s t' else written s t'
  | _ :: t' => written s t'
  end.

Definition calls (t : list event) : list request :=
  omap (fun e => match e with EvCall r => Some r | _ => None end) t.

(** No two remote calls overlap: after a call, the next event is its
    return. *)
Fixpoint sequential (t : list event) : bool :=
  match t with
  | [] => true
  | EvCall _ :: t' =>
      match t' with
      | EvReturn _ :: t'' => sequential t''
      | _ => false
      end
  | EvReturn _ :: _ => false
  | _ :: t' => sequential t'
  end.

(** The order of the checks of [unpublish-version], and the two groups of
    checks of [replication-status], before and after the client is made. *)
Definition unpublish_flags : list StringFlag :=
  [flNamespace; flName; flVersion; flMgtURL; flSubsID; flSubsCert].
Definition client_flags : list StringFlag := [flMgtURL; flSubsID; flSubsCert].
Definition extension_flags : list StringFlag := [flNamespace; flName; flVersion].

(** A flag that is not given stops the command before it reads a file or
    calls the service: the run exits with the entry naming the flag, and
    before that entry it has read no file and made no call. *)
Definition checked_first (cmd : Context -> M unit) (c : Context)
    (fl : StringFlag) : Prop :=
  ~ given c fl ->
  exists pre,
    run cmd c = (Exit 1, pre ++ [fatal [] (missing fl)]) /\
    (forall path, ~ In (EvReadFile path) pre) /\
    calls pre = [].

(** A value that can stand as character data between two tags: printable
    ASCII characters, none of them a markup character. *)
Definition plain_char (c : ascii) : bool :=
  Ascii.leb " " c && Ascii.leb c "~" && negb (bool_decide (c = "<"%char))
  && negb (bool_decide (c = ">"%char)) && negb (bool_decide (c = "&"%char)).

Fixpoint plain_text (s : string) : bool :=
  match s with
  | EmptyString => true
  | String c s' => plain_char c && plain_text s'
  end.

(** The manifest for the three values, with or without the
    [IsJsonExtension] element: the fixed text up to the namespace, between
    the values, and after the version. *)
Definition manifest_open : string :=
  "<?xml version=" +:+ dq +:+ "1.0" +:+ dq +:+ " encoding=" +:+ dq +:+ "utf-8"
  +:+ dq +:+ " ?>" +:+ nl +:+
  "<ExtensionImage xmlns=" +:+ dq +:+ "http://schemas.microsoft.com/windowsazure"
  +:+ dq +:+ "  xmlns:i=" +:+ dq +:+ "http://www.w3.org/2001/XMLSchema-instance"
  +:+ dq +:+ ">" +:+ nl +:+
  "  <!-- WARNING: Ordering of fields matter in this file. -->" +:+ nl +:+
  "  <ProviderNameSpace>".

Definition manifest_after_namespace : string :=
  "</ProviderNameSpace>" +:+ nl +:+ "  <Type>".

Definition manifest_after_name : string :=
  "</Type>" +:+ nl +:+ "  <Version>".

Definition manifest_close (isXMLExtension : bool) : string :=
  "</Version>" +:+ nl +:+
  "  <IsInternalExtension>true</IsInternalExtension>" +:+ nl +:+
  (if isXMLExtension then EmptyString
   else "<IsJsonExtension>true</IsJsonExtension>") +:+
  "</ExtensionImage>".

Definition manifest (ns name version : string) (isXMLExtension : bool) : bytes :=
  manifest_open +:+ ns +:+ manifest_after_namespace +:+ name
  +:+ manifest_after_name +:+ version +:+ manifest_close isXMLExtension.

(** The elements the manifest is to have, with their texts. *)
Definition manifest_fields (ns name version : string) (isXMLExtension : bool)
    : list (string * option string) :=
  [("ProviderNameSpace", Some ns); ("Type", Some name);
   ("Version", Some version); ("IsInternalExtension", Some "true")]
  ++ (if isXMLExtension then [] else [("IsJsonExtension", Some "true")]).

(** The texts of the elements of a name. *)
Definition element_texts (tag : string) (elems : list (string * option string))
    : list (option string) :=
  map snd (filter (fun e => e.1 = tag) elems).

(** The bytes are a well-formed [ExtensionImage] document whose
    [ProviderNameSpace], [Type] and [Version] elements hold the three
    values. *)
Definition carries_values (body : bytes) (ns name version : string) : Prop :=
  exists elems,
    manifest_elements body = Some elems /\
    element_texts "ProviderNameSpace" elems = [Some ns] /\
    element_texts "Type" elems = [Some name] /\
    element_texts "Version" elems = [Some version].

(** The bytes are a well-formed [ExtensionImage] document whose elements are,
    in this order, [ProviderNameSpace], [Type], [Version],
    [IsInternalExtension] and, unless the extension is an XML one,
    [IsJsonExtension], the last two set to true. *)
Definition manifest_shape (body : bytes) (isXMLExtension : bool) : Prop :=
  exists elems,
    manifest_elements body = Some elems /\
    map fst elems
    = ["ProviderNameSpace"; "Type"; "Version"; "IsInternalExtension"]
      ++ (if isXMLExtension then [] else ["IsJsonExtension"]) /\
    element_texts "IsInternalExtension" elems = [Some "true"] /\
    element_texts "IsJsonExtension" elems
    = if isXMLExtension then [] else [Some "true"].

(** The nodes of the manifest's template. *)
Definition manifest_template (isXMLExtension : bool) : list tnode :=
  [TText manifest_open; TField "Namespace";
   TText manifest_after_namespace; TField "Name";
   TText manifest_after_name; TField "Version";
   TText (manifest_close isXMLExtension)].

(** ** Sample worlds and command lines *)

Module Sample.

Definition block (t : string) : Block :=
  {| Type_ := t; Headers := []; Bytes := "key" |}.

Definition statuses : list ReplicationStatus :=
  [ {| Location := "East US"; Status := "Completed" |};
    {| Location := "Japan East"; Status := "InProgress" |} ].

(** A world with a PEM certificate in [cert.pem] and a PKCS#12 archive in
    [cert.pfx], whose remote calls answer as given. *)
Definition world (get : result ReplicationStatusResponse)
    (upd : result string) (wait : option error) (js : result bytes) : World :=
  {| ExtensionsClient := bytes;
     ReadFile := fun p =>
       if decide (p = "cert.pem") then Ok "-----BEGIN CERTIFICATE-----"
       else if decide (p = "cert.pfx") then Ok "0"
       else Err ("open " +:+ p +:+ ": no such file or directory");
     pem_Decode := fun b =>
       if decide (b = "-----BEGIN CERTIFICATE-----")
       then (Some (block "CERTIFICATE"), EmptyString)
       else (None, b);
     pkcs12_ToPEM := fun b _ =>
       if decide (b = "0")
       then Ok [block "CERTIFICATE"; block "PRIVATE KEY"]
       else Err "pkcs12: error reading P12 data";
     pem_EncodeToMemory := fun b => "[" +:+ Type_ b +:+ "]";
     NewClient := fun _ _ cert => Ok cert;
     GetReplicationStatus := fun _ _ _ _ => get;
     UpdateExtension := fun _ _ => upd;
     WaitForOperation := fun _ _ => wait;
     json_MarshalIndent := fun _ _ _ => js;
     tablewriter_render := fun h rows => join (h ++ concat rows) |}.

Definition good : World :=
  world (Ok {| Statuses := statuses |}) (Ok "op-1") None (Ok "[]").

Definition context (ns : string) (cert : string) (flag : bool) : Context :=
  {| stringFlags :=
       list_to_map
         [("management-url", "https://management.core.windows.net");
          ("subscription-id", "sub"); ("subscription-cert", cert);
          ("namespace", ns); ("name", "Ext"); ("version", "1.0")];
     boolFlags :=
       list_to_map [("json", flag); ("is-xml-extension", flag)] |}.

(** A namespace that closes its own element and opens others. *)
Definition injected : string :=
  "x</ProviderNameSpace><IsJsonExtension>true</IsJsonExtension><ProviderNameSpace>y".

End Sample.

(** ** The command table of [main] *)

(** [cli.StringSliceFlag]. *)
Record StringSliceFlag := {
  StringSliceFlag_Name : string;
  StringSliceFlag_Usage : string
}.

Definition flPackage : StringFlag :=
  {| Name := "package"; Usage := "Path of extension package (.zip)";
     EnvVar := EmptyString |}.
Definition flManifest : StringFlag :=
  {| Name := "manifest";
     Usage := "Path of extension manifest file (XML output of 'new-extension-manifest')";
     EnvVar := EmptyString |}.
Definition flStorageRealm : StringFlag :=
  {| Name := "storage-base-url"; Usage := "Azure Storage base URL";
     EnvVar := "STORAGE_BASE_URL" |}.
Definition flStorageAccount : StringFlag :=
  {| Name := "storage-account";
     Usage := "Name of an existing storage account to be used in uploading the extension package temporarily.";
     EnvVar := EmptyString |}.
Definition flRegion : StringSliceFlag :=
  {| StringSliceFlag_Name := "region";
     StringSliceFlag_Usage :=
       "List of one or more regions to rollout an extension (e.g. 'Japan East')" |}.

(** A flag of any of the three kinds ([cli.Flag]). *)
Inductive Flag :=
| FString (f : StringFlag)
| FBool (f : BoolFlag)
| FStringSlice (f : StringSliceFlag).

Definition plainFlag (name usage : string) : Flag :=
  FString {| Name := name; Usage := usage; EnvVar := EmptyString |}.

(** [cli.Command].  The action is the command's function where it is one of
    the two of [replicationstatus.go] and [unpublish.go]; the functions of
    the other commands are in other files. *)
Record Command := {
  cmd_Name : string;
  cmd_Usage : string;
  cmd_Flags : list Flag;
  cmd_Action : option (forall W : World, Context -> M unit)
}.

(** [app.Commands] as [main] sets it. *)
Definition Commands : list Command :=
  [ {| cmd_Name := "new-extension-manifest";
       cmd_Usage := "Creates an XML file used to publish or update extension.";
       cmd_Action := None;
       cmd_Flags :=
         [FString flMgtURL; FString flSubsID; FString flSubsCert;
          FString flPackage; FString flStorageRealm; FString flStorageAccount;
          FString flNamespace; FString flName; FString flVersion;
          plainFlag "label" "Human readable name of the extension";
          plainFlag "description" "Description of the extension";
          plainFlag "eula-url" "URL to the End-User License Agreement page";
          plainFlag "privacy-url" "URL to the Privacy Policy page";
          plainFlag "homepage-url" "URL to the homepage of the extension";
          plainFlag "company" "Human-readable Company Name of the publisher";
          plainFlag "supported-os" "Extension platform e.g. 'Linux'"] |};
    {| cmd_Name := "new-extension";
       cmd_Usage :=
         "Creates a new type of extension, not for releasing new versions.";
       cmd_Flags :=
         [FString flMgtURL; FString flSubsID; FString flSubsCert;
          FString flManifest];
       cmd_Action := None |};
    {| cmd_Name := "new-extension-version";
       cmd_Usage := "Publishes a new type of extension internally.";
       cmd_Flags :=
         [FString flMgtURL; FString flSubsID; FString flSubsCert;
          FString flManifest];
       cmd_Action := None |};
    {| cmd_Name := "promote";
       cmd_Usage :=
         "Promote published internal extension to PROD in one or more locations.";
       cmd_Flags :=
         [FString flMgtURL; FString flSubsID; FString flSubsCert;
          FString flManifest; FStringSlice flRegion];
       cmd_Action := None |};
    {| cmd_Name := "promote-all-regions";
       cmd_Usage := "Promote published extension to all Locations.";
       cmd_Flags :=
         [FString flMgtURL; FString flSubsID; FString flSubsCert;
          FString flManifest];
       cmd_Action := None |};
    {| cmd_Name := "list-versions";
       cmd_Usage := "Lists all published extension versions for subscription";
       cmd_Flags :=
         [FString flMgtURL; FString flSubsID; FString flSubsCert; FBool flJSON];
       cmd_Action := None |};
    {| cmd_Name := "replication-status";
       cmd_Usage :=
         "Retrieves replication status for an uploaded extension package";
       cmd_Flags :=
         [FString flMgtURL; FString flSubsID; FString flSubsCert;
          FString flNamespace; FString flName; FString flVersion; FBool flJSON];
       cmd_Action := Some replicationStatus |};
    {| cmd_Name := "unpublish-version";
       cmd_Usage :=
         "Marks the specified version of the extension internal. Does not delete.";
       cmd_Flags :=
         [FString flMgtURL; FString flSubsID; FString flSubsCert;
          FString flNamespace; FString flName; FString flVersion;
          FBool flIsXMLExtension];
       cmd_Action := Some unpublishVersion |};
    {| cmd_Name := "delete-version";
       cmd_Usage :=
         "Deletes the extension version. It should be unpublished first.";
       cmd_Flags :=
         [FString flMgtURL; FString flSubsID; FString flSubsCert;
          FString flNamespace; FString flName; FString flVersion];
       cmd_Action := None |} ].

(** A declared flag has a value: a string flag is given; a switch or a list
    flag needs none. *)
Definition declared_given (c : Context) (f : Flag) : Prop :=
  match f with
  | FString f => given c f
  | FBool _ | FStringSlice _ => True
  end.

(** ** Why a run stops before its first call *)

(** The message of the fatal entry of a run that stops before any call: a
    flag that is not given, the error of reading the certificate, or the
    error of making the client. *)
Definition startup_failure (W : World) (c : Context) (msg : string) : Prop :=
  let cert := Context_String c (Name flSubsCert) in
  (exists fl, In fl unpublish_flags /\ ~ given c fl /\ msg = missing fl) \/
  (exists err,
     value (readCert W cert) std = Ret (Err err) /\
     msg = "Cannot read certificate " +:+ cert +:+ ": " +:+ err) \/
  (exists b err,
     value (readCert W cert) std = Ret (Ok b) /\
     NewClient W (Context_String c (Name flMgtURL))
       (Context_String c (Name flSubsID)) b = Err err /\
     msg = "Cannot create client: " +:+ err).

(** The files a run read, in order. *)
Definition reads (t : list event) : list string :=
  omap (fun e => match e with EvReadFile p => Some p | _ => None end) t.

(** The log entries of a run, in order. *)
Definition entries (t : list event)
    : list (Level * list (string * string) * string) :=
  omap (fun e => match e with
                 | EvWrite _ (LogEntry lvl fields msg) => Some (lvl, fields, msg)
                 | _ => None
                 end) t.

(** A world whose only file is a PKCS#12 archive without any block. *)
Definition empty_archive : World :=
  {| ExtensionsClient := bytes;
     ReadFile := fun p =>
       if decide (p = "empty.pfx") then Ok "0"
       else Err ("open " +:+ p +:+ ": no such file or directory");
     pem_Decode := fun b => (None, b);
     pkcs12_ToPEM := fun _ _ => Ok [];
     pem_EncodeToMemory := fun b => Bytes b;
     NewClient := fun _ _ cert =>
       if decide (cert = EmptyString) then Err "tls: failed to find any PEM data"
       else Ok cert;
     GetReplicationStatus := fun _ _ _ _ => Ok {| Statuses := [] |};
     UpdateExtension := fun _ _ => Ok "op-1";
     WaitForOperation := fun _ _ => None;
     json_MarshalIndent := fun _ _ _ => Ok "[]";
     tablewriter_render := fun h rows => join (h ++ concat rows) |}.

(** A trace without debug entries, and a program that, run at the level
    [InfoLevel], keeps that level and logs no debug entry. *)
Definition no_debug (t : list event) : Prop :=
  forall fields msg, ~ In (DebugLevel, fields, msg) (entries t).

Definition silent_at_info {A} (m : M A) : Prop :=
  forall lg, level lg = InfoLevel ->
             level (m lg).1.2 = InfoLevel /\ no_debug (m lg).2.

(** * Properties *)

(** ** Strings and the two loops *)

Lemma append_cons (x : ascii) (a b : string) :
  String x a +:+ b = String x (a +:+ b).
Proof. reflexivity. Qed.

Lemma append_assoc (a b c : string) : (a +:+ b) +:+ c = a +:+ (b +:+ c).
Proof.
  induction a as [|x a IH]; [reflexivity|].
  rewrite !append_cons. now rewrite IH.
Qed.

Lemma append_empty_r (a : string) : a +:+ EmptyString = a.
Proof.
  induction a as [|x a IH]; [reflexivity|].
  rewrite append_cons. now rewrite IH.
Qed.

Lemma write_blocks_join (W : World) (pemBlocks : list Block) (buf : bytes) :
  write_blocks W buf pemBlocks
  = buf +:+ join (map (pem_EncodeToMemory W) pemBlocks).
Proof.
  revert buf; induction pemBlocks as [|x l IH]; intros buf.
  - symmetry. apply append_empty_r.
  - change (write_blocks W buf (x :: l))
      with (write_blocks W (buf +:+ pem_EncodeToMemory W x) l).
    rewrite IH. apply append_assoc.
Qed.

Lemma table_rows_from (statuses : list ReplicationStatus)
    (data : list (list string)) :
  fold_left (fun data s => data ++ [[Location s; Status s]]) statuses data
  = data ++ map (fun s => [Location s; Status s]) statuses.
Proof.
  revert data; induction statuses as [|s l IH]; intros data; simpl.
  - now rewrite app_nil_r.
  - rewrite IH, <- app_assoc. reflexivity.
Qed.

Lemma table_data_map (statuses : list ReplicationStatus) :
  table_data statuses = map (fun s => [Location s; Status s]) statuses.
Proof. unfold table_data. now rewrite table_rows_from. Qed.

(** ** [readCert] *)

Lemma readCert_run (W : World) (certFile : string) (lg : Logger) :
  readCert W certFile lg
  = (value (readCert W certFile) std, lg, [EvReadFile certFile]).
Proof.
  unfold value, readCert, io_ReadFile, bind, emit, ret; simpl.
  destruct (ReadFile W certFile) as [b|e]; [|reflexivity].
  destruct (pem_Decode W b) as [[p|] rest]; [reflexivity|].
  destruct (pkcs12_ToPEM W b EmptyString); reflexivity.
Qed.

(** C8: [readCert] always returns, having read the file once.  With a PEM
    block in the file's bytes it returns the bytes unchanged and no error;
    without one it decodes the bytes as PKCS#12 with the empty password and
    returns the PEM encodings of the blocks, one after the other.  It returns
    an error exactly when the file cannot be read or, no PEM block being
    found, the PKCS#12 decoding fails, and the error is that failure's. *)
Theorem readCert_spec (W : World) (certFile : string) (lg : Logger) :
  events (readCert W certFile) lg = [EvReadFile certFile] /\
  (exists r, value (readCert W certFile) lg = Ret r) /\
  (forall b p rest,
      ReadFile W certFile = Ok b -> pem_Decode W b = (Some p, rest) ->
      value (readCert W certFile) lg = Ret (Ok b)) /\
  (forall b rest pemBlocks,
      ReadFile W certFile = Ok b -> pem_Decode W b = (None, rest) ->
      pkcs12_ToPEM W b EmptyString = Ok pemBlocks ->
      value (readCert W certFile) lg
      = Ret (Ok (join (map (pem_EncodeToMemory W) pemBlocks)))) /\
  (forall e,
      value (readCert W certFile) lg = Ret (Err e) <->
      ReadFile W certFile = Err e \/
      exists b rest,
        ReadFile W certFile = Ok b /\ pem_Decode W b = (None, rest) /\
        pkcs12_ToPEM W b EmptyString = Err e).
Proof.
  unfold events, value. rewrite readCert_run. simpl.
  unfold value, readCert, io_ReadFile, bind, emit, ret; simpl.
  split; [reflexivity|].
  destruct (ReadFile W certFile) as [b|e0] eqn:Hread; simpl.
  - destruct (pem_Decode W b) as [[p|] rest] eqn:Hpem; simpl.
    + split_and!; eauto; try congruence.
      intros e; split; [congruence|].
      intros [?|(b' & rest' & Hb & Hp & _)]; congruence.
    + destruct (pkcs12_ToPEM W b EmptyString) as [blocks|e1] eqn:Hp12; simpl.
      * rewrite write_blocks_join.
        split_and!; eauto; try congruence.
        -- intros b' rest' bl Hb _ Hbl.
           assert (bl = blocks) as -> by congruence. reflexivity.
        -- intros e; split; [congruence|].
           intros [?|(b' & rest' & Hb & Hp & Hq)]; congruence.
      * split_and!; eauto; try congruence.
        intros e; split.
        -- intros [= <-]. right. eauto.
        -- intros [?|(b' & rest' & Hb & Hp & Hq)]; congruence.
  - split_and!; eauto; try congruence.
    intros e; split.
    + intros [= <-]. now left.
    + intros [?|(b' & rest' & Hb & _)]; congruence.
Qed.

(** The PEM file is returned as it is, the PKCS#12 archive as the encodings
    of its two blocks, and a missing file as the error of the read. *)
Lemma readCert_spec_witness :
  value (readCert Sample.good "cert.pem") std
  = Ret (Ok "-----BEGIN CERTIFICATE-----") /\
  value (readCert Sample.good "cert.pfx") std
  = Ret (Ok "[CERTIFICATE][PRIVATE KEY]") /\
  value (readCert Sample.good "none") std
  = Ret (Err "open none: no such file or directory").
Proof.
  split; [|split].
  - destruct (readCert_spec Sample.good "cert.pem" std) as (_ & _ & H & _).
    apply (H _ (Sample.block "CERTIFICATE") EmptyString); reflexivity.
  - destruct (readCert_spec Sample.good "cert.pfx" std) as (_ & _ & _ & H & _).
    apply (H "0" "0" [Sample.block "CERTIFICATE"; Sample.block "PRIVATE KEY"]);
      reflexivity.
  - destruct (readCert_spec Sample.good "none" std) as (_ & _ & _ & _ & H).
    apply H. left. reflexivity.
Defined.

(** ** The models on small inputs *)

Example quote_flag_name :
  strconv_Quote "name" = String dquote ("name" +:+ dq).
Proof. reflexivity. Qed.

Example template_fields :
  template_Parse "t" "<a>{{.Name}}</a>{x}{{ .Version }}"
  = Ok [TText "<a>"; TField "Name"; TText "</a>{x}"; TField "Version"].
Proof. reflexivity. Qed.

Example template_unclosed :
  template_Parse "t" "<a>{{.Name" = Err "template: t: unclosed action".
Proof. reflexivity. Qed.

Example template_value_not_parsed :
  template_Execute [TText "<a>"; TField "Name"; TText "</a>"]
    (Params_field {| Namespace := "n"; Name_ := "{{.Version}}"; Version := "v" |})
    EmptyString
  = Ok "<a>{{.Version}}</a>".
Proof. reflexivity. Qed.

Example xml_nested :
  xml_parse "<?xml version='1.0'?><a x='1'><b>t</b><!-- c --><c/> </a>"
  = Some (Elem "a" [("x", "1")]
            [Elem "b" [] [Text "t"]; Elem "c" [] []; Text " "]).
Proof. reflexivity. Qed.

Example xml_mismatched_tags : xml_parse "<a><b></a></b>" = None.
Proof. reflexivity. Qed.

Example xml_two_roots : xml_parse "<a/><b/>" = None.
Proof. reflexivity. Qed.

Example xml_unclosed : xml_parse "<a><b></b>" = None.
Proof. reflexivity. Qed.

Example xml_section_end_in_text : xml_parse "<a>]]></a>" = None.
Proof. reflexivity. Qed.

Example xml_ampersand : xml_parse "<a>R&D</a>" = None.
Proof. reflexivity. Qed.

Example xml_duplicate_attribute : xml_parse "<a x='1' x='2'/>" = None.
Proof. reflexivity. Qed.

Example run_unpublish_sample :
  run (unpublishVersion Sample.good)
    (Sample.context "Contoso.Ext" "cert.pem" false)
  = (Ret tt,
     [EvReadFile "cert.pem";
      EvCall (ReqUpdateExtension (manifest "Contoso.Ext" "Ext" "1.0" false));
      EvReturn (RespUpdateExtension (Ok "op-1"));
      EvWrite Stderr
        (LogEntry InfoLevel [("x-ms-operation-id", "op-1")]
           "UpdateExtension operation started.");
      EvCall (ReqWaitForOperation "op-1");
      EvReturn (RespWaitForOperation None);
      EvWrite Stderr
        (LogEntry InfoLevel [("x-ms-operation-id", "op-1")]
           "UpdateExtension operation finished.")]).
Proof. vm_compute. reflexivity. Qed.

(** ** Running the commands *)

Lemma init_run : init std = (Ret tt, configured, []).
Proof. reflexivity. Qed.

Lemma bind_run {A B} (m : M A) (k : A -> M B) lg a lg1 t1 :
  m lg = (Ret a, lg1, t1) ->
  bind m k lg = (let '(o, lg2, t2) := k a lg1 in (o, lg2, t1 ++ t2)).
Proof. intros H. unfold bind. rewrite H. reflexivity. Qed.

Lemma bind_exit {A B} (m : M A) (k : A -> M B) lg code lg1 t1 :
  m lg = (Exit code, lg1, t1) -> bind m k lg = (Exit code, lg1, t1).
Proof. intros H. unfold bind. rewrite H. reflexivity. Qed.

Lemma checkFlag_given (c : Context) (fl : StringFlag) lg :
  given c fl ->
  checkFlag c (Name fl) lg = (Ret (Context_String c (Name fl)), lg, []).
Proof. intros H. unfold checkFlag. now rewrite decide_False. Qed.

Lemma checkFlag_missing (c : Context) (fl : StringFlag) :
  ~ given c fl ->
  checkFlag c (Name fl) configured
  = (Exit 1, configured, [fatal [] (missing fl)]).
Proof.
  intros H. unfold checkFlag. rewrite decide_True; [reflexivity|].
  unfold given in H. destruct (decide (Context_String c (Name fl) = EmptyString));
    [assumption | contradiction].
Qed.

Lemma mkClient_ready (W : World) (c : Context) (cl : ExtensionsClient W) lg :
  client_ready W c cl ->
  mkClient W (Context_String c (Name flMgtURL))
    (Context_String c (Name flSubsID)) (Context_String c (Name flSubsCert)) lg
  = (Ret cl, lg, [EvReadFile (Context_String c (Name flSubsCert))]).
Proof.
  intros (_ & _ & _ & b & Hb & Hcl).
  unfold mkClient, bind. rewrite readCert_run, Hb, Hcl. reflexivity.
Qed.

(** The template of the manifest parses, and its execution puts the three
    values between their tags as they are. *)
Lemma manifest_template_parse (isXMLExtension : bool) :
  template_Parse "unregisterManifest"
    ((if negb isXMLExtension
      then manifest_head +:+ "<IsJsonExtension>true</IsJsonExtension>"
      else manifest_head) +:+ "</ExtensionImage>")
  = Ok (manifest_template isXMLExtension).
Proof. destruct isXMLExtension; vm_compute; reflexivity. Qed.

Lemma Params_field_names (p : Params) :
  Params_field p "Namespace" = Some (Namespace p) /\
  Params_field p "Name" = Some (Name_ p) /\
  Params_field p "Version" = Some (Version p).
Proof. repeat split. Qed.

Lemma manifest_template_execute (ns name version : string) (isXMLExtension : bool) :
  template_Execute (manifest_template isXMLExtension)
    (Params_field {| Namespace := ns; Name_ := name; Version := version |})
    EmptyString
  = Ok (manifest ns name version isXMLExtension).
Proof.
  set (p := {| Namespace := ns; Name_ := name; Version := version |}).
  destruct (Params_field_names p) as (Hns & Hname & Hversion).
  cbn. rewrite Hns, Hname, Hversion. unfold manifest.
  rewrite !append_assoc. reflexivity.
Qed.

Ltac run_step H := rewrite (bind_run _ _ _ _ _ _ H); cbv beta.

(** With the client ready and the extension named, [replication-status]
    reads the certificate, logs and fetches; what follows depends on the
    answer alone. *)
Lemma replicationStatus_fetches (W : World) (c : Context)
    (cl : ExtensionsClient W) :
  client_ready W c cl -> extension_given c ->
  run (replicationStatus W) c
  = let r := GetReplicationStatus W cl (Context_String c (Name flNamespace))
               (Context_String c (Name flName))
               (Context_String c (Name flVersion)) in
    match r with
    | Err err =>
        (Exit 1,
         fetch_events c r
         ++ [fatal [] ("Cannot fetch replication status: " +:+ err)])
    | Ok rs =>
        if Context_Bool c (BoolFlag_Name flJSON) then
          match json_MarshalIndent W (Statuses rs) EmptyString "  " with
          | Ok b => (Ret tt, fetch_events c r ++ [EvWrite Stdout (Data b)])
          | Err err =>
              (Exit 1,
               fetch_events c r
               ++ [fatal [] ("failed to format as json: " +:+ err)])
          end
        else
          (Ret tt,
           fetch_events c r
           ++ [EvWrite Stdout
                 (Data (tablewriter_render W ["Location"; "Status"]
                          (table_data (Statuses rs))))])
    end.
Proof.
  intros Hc (Hns & Hname & Hversion).
  pose proof Hc as (Hurl & Hsub & Hcert & _).
  unfold run, replicationStatus.
  run_step init_run.
  run_step (checkFlag_given c flMgtURL configured Hurl).
  run_step (checkFlag_given c flSubsID configured Hsub).
  run_step (checkFlag_given c flSubsCert configured Hcert).
  run_step (mkClient_ready W c cl configured Hc).
  run_step (checkFlag_given c flNamespace configured Hns).
  run_step (checkFlag_given c flName configured Hname).
  run_step (checkFlag_given c flVersion configured Hversion).
  unfold bind, cl_GetReplicationStatus, Debug, log_entry, emit, ret, fetch_events.
  simpl.
  destruct (GetReplicationStatus W cl _ _ _) as [rs|err]; simpl; [|reflexivity].
  destruct (Context_Bool c "json"); simpl.
  - unfold printAsJSON, bind, emit, ret.
    destruct (json_MarshalIndent W _ _ _); reflexivity.
  - reflexivity.
Qed.

(** With the client ready and the extension named, [unpublish-version]
    reads the certificate and sends the manifest; it waits for the operation
    only when the update gave one. *)
Lemma unpublishVersion_updates (W : World) (c : Context)
    (cl : ExtensionsClient W) :
  client_ready W c cl -> extension_given c ->
  run (unpublishVersion W) c
  = let body := manifest (Context_String c (Name flNamespace))
                  (Context_String c (Name flName))
                  (Context_String c (Name flVersion))
                  (Context_Bool c (BoolFlag_Name flIsXMLExtension)) in
    let r := UpdateExtension W cl body in
    match r with
    | Err err =>
        (Exit 1,
         update_events c body r ++ [fatal [] ("UpdateExtension failed: " +:+ err)])
    | Ok op =>
        let lg := [("x-ms-operation-id", op)] in
        let w := WaitForOperation W cl op in
        let t := update_events c body r
                 ++ [EvWrite Stderr
                       (LogEntry InfoLevel lg "UpdateExtension operation started.");
                     EvCall (ReqWaitForOperation op);
                     EvReturn (RespWaitForOperation w)] in
        match w with
        | Some err =>
            (Exit 1, t ++ [fatal lg ("UpdateExtension failed: " +:+ err)])
        | None =>
            (Ret tt,
             t ++ [EvWrite Stderr
                     (LogEntry InfoLevel lg "UpdateExtension operation finished.")])
        end
    end.
Proof.
  intros Hc (Hns & Hname & Hversion).
  pose proof Hc as (Hurl & Hsub & Hcert & _).
  unfold run, unpublishVersion.
  run_step init_run.
  run_step (checkFlag_given c flNamespace configured Hns).
  run_step (checkFlag_given c flName configured Hname).
  run_step (checkFlag_given c flVersion configured Hversion).
  rewrite manifest_template_parse, manifest_template_execute.
  run_step (checkFlag_given c flMgtURL configured Hurl).
  run_step (checkFlag_given c flSubsID configured Hsub).
  run_step (checkFlag_given c flSubsCert configured Hcert).
  run_step (mkClient_ready W c cl configured Hc).
  unfold bind, cl_UpdateExtension, cl_WaitForOperation, Info, Fatalf, log_entry,
    emit, ret, update_events, WithField.
  simpl.
  destruct (UpdateExtension W cl _) as [op|err]; simpl; [|reflexivity].
  destruct (WaitForOperation W cl op); reflexivity.
Qed.

(** ** Remote errors *)

(** C2: a remote call that returns an error ends the command: the process
    exits with status 1 after one fatal log entry whose message ends with the
    error's text as it is.  The trace shows the single call that failed and
    nothing after its entry: no second attempt and no other call.  For
    [replication-status] the error is that of [GetReplicationStatus], for
    [unpublish-version] that of [UpdateExtension] or of [WaitForOperation]. *)
Theorem remote_errors_are_fatal (W : World) (c : Context)
    (cl : ExtensionsClient W) :
  client_ready W c cl -> extension_given c ->
  let ns := Context_String c (Name flNamespace) in
  let name := Context_String c (Name flName) in
  let version := Context_String c (Name flVersion) in
  let body := manifest ns name version (Context_Bool c (BoolFlag_Name flIsXMLExtension)) in
  (forall err,
      GetReplicationStatus W cl ns name version = Err err ->
      run (replicationStatus W) c
      = (Exit 1,
         fetch_events c (Err err)
         ++ [fatal [] ("Cannot fetch replication status: " +:+ err)])) /\
  (forall err,
      UpdateExtension W cl body = Err err ->
      run (unpublishVersion W) c
      = (Exit 1,
         update_events c body (Err err)
         ++ [fatal [] ("UpdateExtension failed: " +:+ err)])) /\
  (forall op err,
      UpdateExtension W cl body = Ok op ->
      WaitForOperation W cl op = Some err ->
      run (unpublishVersion W) c
      = (Exit 1,
         update_events c body (Ok op)
         ++ [EvWrite Stderr
               (LogEntry InfoLevel [("x-ms-operation-id", op)]
                  "UpdateExtension operation started.");
             EvCall (ReqWaitForOperation op);
             EvReturn (RespWaitForOperation (Some err));
             fatal [("x-ms-operation-id", op)]
               ("UpdateExtension failed: " +:+ err)])).
Proof.
  intros Hc He. cbv zeta. split_and!.
  - intros err Hr. rewrite (replicationStatus_fetches W c cl Hc He).
    cbv zeta. rewrite Hr. reflexivity.
  - intros err Hr. rewrite (unpublishVersion_updates W c cl Hc He).
    cbv zeta. rewrite Hr. reflexivity.
  - intros op err Hr Hw. rewrite (unpublishVersion_updates W c cl Hc He).
    cbv zeta. rewrite Hr, Hw. rewrite <- app_assoc. reflexivity.
Qed.

Lemma sample_client_ready get upd wait js ns flag :
  client_ready (Sample.world get upd wait js)
    (Sample.context ns "cert.pem" flag)
    "-----BEGIN CERTIFICATE-----".
Proof. split_and!; try (vm_compute; congruence). eexists; split; reflexivity. Qed.

Lemma sample_extension_given ns cert flag :
  ns <> EmptyString -> extension_given (Sample.context ns cert flag).
Proof.
  intros H. split_and!; [exact H | |]; vm_compute; congruence.
Qed.

(** A failing fetch, update and wait, each in a world of its own. *)
Lemma remote_errors_are_fatal_witness :
  (run (replicationStatus (Sample.world (Err "403 Forbidden") (Ok "op-1") None
                             (Ok "[]")))
     (Sample.context "Contoso.Ext" "cert.pem" false)).1 = Exit 1 /\
  (run (unpublishVersion (Sample.world (Err "403 Forbidden")
                            (Err "409 Conflict") None (Ok "[]")))
     (Sample.context "Contoso.Ext" "cert.pem" false)).1 = Exit 1 /\
  (run (unpublishVersion (Sample.world (Err "403 Forbidden") (Ok "op-1")
                            (Some "operation failed") (Ok "[]")))
     (Sample.context "Contoso.Ext" "cert.pem" false)).1 = Exit 1.
Proof.
  assert (Hn : "Contoso.Ext" <> EmptyString) by congruence.
  split_and!.
  - pose proof (remote_errors_are_fatal _ _ _
      (sample_client_ready (Err "403 Forbidden") (Ok "op-1") None (Ok "[]")
         _ false)
      (sample_extension_given _ "cert.pem" false Hn)) as (H & _ & _).
    rewrite (H "403 Forbidden" eq_refl). reflexivity.
  - pose proof (remote_errors_are_fatal _ _ _
      (sample_client_ready (Err "403 Forbidden") (Err "409 Conflict") None
         (Ok "[]") _ false)
      (sample_extension_given _ "cert.pem" false Hn)) as (_ & H & _).
    rewrite (H "409 Conflict" eq_refl). reflexivity.
  - pose proof (remote_errors_are_fatal _ _ _
      (sample_client_ready (Err "403 Forbidden") (Ok "op-1")
         (Some "operation failed") (Ok "[]") _ false)
      (sample_extension_given _ "cert.pem" false Hn)) as (_ & _ & H).
    rewrite (H "op-1" "operation failed" eq_refl eq_refl). reflexivity.
Defined.

(** ** The output of [replication-status] *)

Lemma table_data_two_columns (statuses : list ReplicationStatus) :
  Forall (fun row => length row = 2) (table_data statuses).
Proof.
  rewrite table_data_map. induction statuses as [|s l IH]; simpl.
  - constructor.
  - constructor; [reflexivity | exact IH].
Qed.

(** C3: once the statuses are fetched, the [json] flag alone selects the
    format.  With the flag, what is written to the standard output is the
    encoding of the statuses by [json.MarshalIndent] with an indent of two
    spaces; without it, the table rendered with the header [Location],
    [Status] and two-column rows.  Whatever is written to the standard
    output is one of the two. *)
Theorem replication_output_format (W : World) (c : Context)
    (cl : ExtensionsClient W) (rs : ReplicationStatusResponse) :
  client_ready W c cl -> extension_given c ->
  GetReplicationStatus W cl (Context_String c (Name flNamespace))
    (Context_String c (Name flName)) (Context_String c (Name flVersion))
  = Ok rs ->
  let t := (run (replicationStatus W) c).2 in
  let table :=
    Data (tablewriter_render W ["Location"; "Status"] (table_data (Statuses rs))) in
  (Context_Bool c (BoolFlag_Name flJSON) = true ->
   forall b, json_MarshalIndent W (Statuses rs) EmptyString "  " = Ok b ->
             written Stdout t = [Data b]) /\
  (Context_Bool c (BoolFlag_Name flJSON) = false ->
   written Stdout t = [table] /\
   Forall (fun row => length row = 2) (table_data (Statuses rs))) /\
  (forall p, In p (written Stdout t) ->
     (Context_Bool c (BoolFlag_Name flJSON) = true /\
      exists b, json_MarshalIndent W (Statuses rs) EmptyString "  " = Ok b /\
                p = Data b) \/
     (Context_Bool c (BoolFlag_Name flJSON) = false /\ p = table)).
Proof.
  intros Hc He Hr. cbv zeta.
  rewrite (replicationStatus_fetches W c cl Hc He). cbv zeta. rewrite Hr.
  destruct (Context_Bool c (BoolFlag_Name flJSON)) eqn:Hjson.
  - destruct (json_MarshalIndent W (Statuses rs) EmptyString "  ") as [b|err]
      eqn:Hb; simpl; split_and!; try congruence.
    + intros p [<-|[]]. left. eauto.
    + intros p [].
  - simpl. split_and!; try congruence.
    + intros _. split; [reflexivity | apply table_data_two_columns].
    + intros p [<-|[]]. right. auto.
Qed.

Lemma replication_output_format_witness :
  written Stdout
    (run (replicationStatus Sample.good)
       (Sample.context "Contoso.Ext" "cert.pem" true)).2
  = [Data "[]"] /\
  written Stdout
    (run (replicationStatus Sample.good)
       (Sample.context "Contoso.Ext" "cert.pem" false)).2
  = [Data "LocationStatusEast USCompletedJapan EastInProgress"].
Proof.
  assert (Hn : "Contoso.Ext" <> EmptyString) by congruence.
  split.
  - pose proof (replication_output_format Sample.good _ _ _
      (sample_client_ready _ _ _ _ _ true)
      (sample_extension_given _ "cert.pem" true Hn) eq_refl) as (H & _ & _).
    apply (H eq_refl "[]" eq_refl).
  - pose proof (replication_output_format Sample.good _ _ _
      (sample_client_ready _ _ _ _ _ false)
      (sample_extension_given _ "cert.pem" false Hn) eq_refl) as (_ & H & _).
    apply (H eq_refl).
Defined.

(** C6: the statuses are printed as they were returned.  The rows of the
    table are the pairs of location and status of the response's statuses,
    one row per status and in the response's order; the JSON output is the
    encoding of that same list. *)
Theorem replication_output_is_statuses (W : World) (c : Context)
    (cl : ExtensionsClient W) (rs : ReplicationStatusResponse) :
  client_ready W c cl -> extension_given c ->
  GetReplicationStatus W cl (Context_String c (Name flNamespace))
    (Context_String c (Name flName)) (Context_String c (Name flVersion))
  = Ok rs ->
  let t := (run (replicationStatus W) c).2 in
  (Context_Bool c (BoolFlag_Name flJSON) = false ->
   written Stdout t
   = [Data (tablewriter_render W ["Location"; "Status"]
              (map (fun s => [Location s; Status s]) (Statuses rs)))]) /\
  (Context_Bool c (BoolFlag_Name flJSON) = true ->
   forall b, written Stdout t = [Data b] <->
             json_MarshalIndent W (Statuses rs) EmptyString "  " = Ok b).
Proof.
  intros Hc He Hr. cbv zeta.
  rewrite (replicationStatus_fetches W c cl Hc He). cbv zeta. rewrite Hr.
  destruct (Context_Bool c (BoolFlag_Name flJSON)); split; try congruence.
  - intros _ b.
    destruct (json_MarshalIndent W (Statuses rs) EmptyString "  ") as [b'|err];
      simpl; split; congruence.
  - intros _. rewrite table_data_map. reflexivity.
Qed.

Lemma replication_output_is_statuses_witness :
  written Stdout
    (run (replicationStatus Sample.good)
       (Sample.context "Contoso.Ext" "cert.pem" false)).2
  = [Data (tablewriter_render Sample.good ["Location"; "Status"]
             [["East US"; "Completed"]; ["Japan East"; "InProgress"]])].
Proof.
  assert (Hn : "Contoso.Ext" <> EmptyString) by congruence.
  pose proof (replication_output_is_statuses Sample.good _ _ _
    (sample_client_ready _ _ _ _ _ _)
    (sample_extension_given _ "cert.pem" false Hn) eq_refl) as (H & _).
  apply (H eq_refl).
Defined.

(** ** Every run: stopped before the first call, or client ready *)

Ltac run_exit H := rewrite (bind_exit _ _ _ _ _ _ H).

Lemma mkClient_run (W : World) (mgtURL subscriptionID certFile : string) :
  mkClient W mgtURL subscriptionID certFile configured
  = match value (readCert W certFile) std with
    | Ret (Ok b) =>
        match NewClient W mgtURL subscriptionID b with
        | Ok cl => (Ret cl, configured, [EvReadFile certFile])
        | Err err =>
            (Exit 1, configured,
             [EvReadFile certFile; fatal [] ("Cannot create client: " +:+ err)])
        end
    | Ret (Err err) =>
        (Exit 1, configured,
         [EvReadFile certFile;
          fatal [] ("Cannot read certificate " +:+ certFile +:+ ": " +:+ err)])
    | Exit code => (Exit code, configured, [EvReadFile certFile])
    end.
Proof.
  unfold mkClient, bind. rewrite readCert_run.
  destruct (value (readCert W certFile) std) as [[b|err]|code]; try reflexivity.
  destruct (NewClient W mgtURL subscriptionID b); reflexivity.
Qed.

Lemma readCert_returns (W : World) (certFile : string) (code : Z) :
  value (readCert W certFile) std <> Exit code.
Proof.
  unfold value, readCert, io_ReadFile, bind, emit, ret; simpl.
  destruct (ReadFile W certFile) as [b|err]; simpl; [|discriminate].
  destruct (pem_Decode W b) as [[p|] rest]; simpl; [discriminate|].
  destruct (pkcs12_ToPEM W b EmptyString); discriminate.
Qed.

Lemma local_calls (t : list event) : forallb is_local t = true -> calls t = [].
Proof.
  induction t as [|e t IH]; [reflexivity|]. simpl.
  intros [He Ht]%andb_prop. destruct e; try discriminate; auto.
Qed.

Lemma local_sequential (t : list event) :
  forallb is_local t = true -> sequential t = true.
Proof.
  induction t as [|e t IH]; [reflexivity|]. simpl.
  intros [He Ht]%andb_prop. destruct e; try discriminate; auto.
Qed.

Lemma local_stdout (t : list event) :
  forallb is_local t = true -> written Stdout t = [].
Proof.
  induction t as [|e t IH]; [reflexivity|]. simpl.
  intros [He Ht]%andb_prop.
  destruct e as [|[] []| |]; try discriminate; auto.
Qed.

Lemma replicationStatus_cases (W : World) (c : Context) :
  (exists cl, client_ready W c cl /\ extension_given c) \/
  ((run (replicationStatus W) c).1 = Exit 1 /\
   forallb is_local (run (replicationStatus W) c).2 = true).
Proof.
  unfold run, replicationStatus. run_step init_run.
  destruct (decide (given c flMgtURL)) as [Hurl|Hurl];
    [run_step (checkFlag_given c flMgtURL configured Hurl)
    |run_exit (checkFlag_missing c flMgtURL Hurl); right; split; reflexivity].
  destruct (decide (given c flSubsID)) as [Hsub|Hsub];
    [run_step (checkFlag_given c flSubsID configured Hsub)
    |run_exit (checkFlag_missing c flSubsID Hsub); right; split; reflexivity].
  destruct (decide (given c flSubsCert)) as [Hcert|Hcert];
    [run_step (checkFlag_given c flSubsCert configured Hcert)
    |run_exit (checkFlag_missing c flSubsCert Hcert); right; split; reflexivity].
  pose proof (mkClient_run W (Context_String c (Name flMgtURL))
    (Context_String c (Name flSubsID)) (Context_String c (Name flSubsCert)))
    as Hmk.
  destruct (value (readCert W _) std) as [[b|err]|code] eqn:Hread.
  - destruct (NewClient W _ _ b) as [cl|err] eqn:Hnew.
    + run_step Hmk.
      destruct (decide (given c flNamespace)) as [Hns|Hns];
        [|run_exit (checkFlag_missing c flNamespace Hns); right; split;
          reflexivity].
      run_step (checkFlag_given c flNamespace configured Hns).
      destruct (decide (given c flName)) as [Hname|Hname];
        [|run_exit (checkFlag_missing c flName Hname); right; split;
          reflexivity].
      run_step (checkFlag_given c flName configured Hname).
      destruct (decide (given c flVersion)) as [Hversion|Hversion];
        [|run_exit (checkFlag_missing c flVersion Hversion); right; split;
          reflexivity].
      left. exists cl. unfold client_ready, extension_given. eauto 10.
    + run_exit Hmk. right; split; reflexivity.
  - run_exit Hmk. right; split; reflexivity.
  - now apply readCert_returns in Hread.
Qed.

Lemma unpublishVersion_cases (W : World) (c : Context) :
  (exists cl, client_ready W c cl /\ extension_given c) \/
  ((run (unpublishVersion W) c).1 = Exit 1 /\
   forallb is_local (run (unpublishVersion W) c).2 = true).
Proof.
  unfold run, unpublishVersion. run_step init_run.
  destruct (decide (given c flNamespace)) as [Hns|Hns];
    [run_step (checkFlag_given c flNamespace configured Hns)
    |run_exit (checkFlag_missing c flNamespace Hns); right; split; reflexivity].
  destruct (decide (given c flName)) as [Hname|Hname];
    [run_step (checkFlag_given c flName configured Hname)
    |run_exit (checkFlag_missing c flName Hname); right; split; reflexivity].
  destruct (decide (given c flVersion)) as [Hversion|Hversion];
    [run_step (checkFlag_given c flVersion configured Hversion)
    |run_exit (checkFlag_missing c flVersion Hversion); right; split;
     reflexivity].
  rewrite manifest_template_parse, manifest_template_execute.
  destruct (decide (given c flMgtURL)) as [Hurl|Hurl];
    [run_step (checkFlag_given c flMgtURL configured Hurl)
    |run_exit (checkFlag_missing c flMgtURL Hurl); right; split; reflexivity].
  destruct (decide (given c flSubsID)) as [Hsub|Hsub];
    [run_step (checkFlag_given c flSubsID configured Hsub)
    |run_exit (checkFlag_missing c flSubsID Hsub); right; split; reflexivity].
  destruct (decide (given c flSubsCert)) as [Hcert|Hcert];
    [run_step (checkFlag_given c flSubsCert configured Hcert)
    |run_exit (checkFlag_missing c flSubsCert Hcert); right; split; reflexivity].
  pose proof (mkClient_run W (Context_String c (Name flMgtURL))
    (Context_String c (Name flSubsID)) (Context_String c (Name flSubsCert)))
    as Hmk.
  destruct (value (readCert W _) std) as [[b|err]|code] eqn:Hread.
  - destruct (NewClient W _ _ b) as [cl|err] eqn:Hnew.
    + left. exists cl. unfold client_ready, extension_given. eauto 10.
    + run_exit Hmk. right; split; reflexivity.
  - run_exit Hmk. right; split; reflexivity.
  - now apply readCert_returns in Hread.
Qed.

(** ** Flags *)

(** C7, as stated, fails for [replication-status]: with the namespace not
    given, the certificate file is read before the check of the namespace
    stops the command. *)
Lemma replication_reads_before_namespace_check :
  ~ checked_first (replicationStatus Sample.good)
      (Sample.context EmptyString "cert.pem" false) flNamespace.
Proof.
  intros H. destruct H as (pre & Hrun & Hread & _).
  { vm_compute. intros Hg. now apply Hg. }
  assert (Hr : run (replicationStatus Sample.good)
                 (Sample.context EmptyString "cert.pem" false)
               = (Exit 1, [EvReadFile "cert.pem";
                           fatal [] (missing flNamespace)]))
    by (vm_compute; reflexivity).
  rewrite Hr in Hrun.
  destruct pre as [|e pre]; [discriminate|].
  injection Hrun as He _.
  apply (Hread "cert.pem"). left. now symmetry.
Qed.

(** C7, amended: [unpublish-version] checks all six flags before anything
    else, and stops at the first that is not given with the entry naming it,
    nothing read and nothing called.  [replication-status] checks
    [management-url], [subscription-id] and [subscription-cert] that way;
    [namespace], [name] and [version] it checks once the client is made from
    the certificate, and stops at the first not given after the certificate
    was read.  In both commands a flag not given means exit status 1 and no
    call to the service. *)
Theorem flags_checked_before_calls (W : World) (c : Context) (fl : StringFlag) :
  (first_missing c unpublish_flags = Some fl ->
   run (unpublishVersion W) c = (Exit 1, [fatal [] (missing fl)])) /\
  (first_missing c client_flags = Some fl ->
   run (replicationStatus W) c = (Exit 1, [fatal [] (missing fl)])) /\
  (forall cl,
      client_ready W c cl ->
      first_missing c extension_flags = Some fl ->
      run (replicationStatus W) c
      = (Exit 1,
         [EvReadFile (Context_String c (Name flSubsCert));
          fatal [] (missing fl)])) /\
  (In fl unpublish_flags -> ~ given c fl ->
   (run (replicationStatus W) c).1 = Exit 1 /\
   calls (run (replicationStatus W) c).2 = [] /\
   (run (unpublishVersion W) c).1 = Exit 1 /\
   calls (run (unpublishVersion W) c).2 = []).
Proof.
  split_and!.
  - unfold first_missing, unpublish_flags, run, unpublishVersion.
    run_step init_run.
    destruct (decide (given c flNamespace)) as [Hns|Hns];
      [run_step (checkFlag_given c flNamespace configured Hns)
      |run_exit (checkFlag_missing c flNamespace Hns); now intros [= <-]].
    destruct (decide (given c flName)) as [Hname|Hname];
      [run_step (checkFlag_given c flName configured Hname)
      |run_exit (checkFlag_missing c flName Hname); now intros [= <-]].
    destruct (decide (given c flVersion)) as [Hversion|Hversion];
      [run_step (checkFlag_given c flVersion configured Hversion)
      |run_exit (checkFlag_missing c flVersion Hversion); now intros [= <-]].
    rewrite manifest_template_parse, manifest_template_execute.
    destruct (decide (given c flMgtURL)) as [Hurl|Hurl];
      [run_step (checkFlag_given c flMgtURL configured Hurl)
      |run_exit (checkFlag_missing c flMgtURL Hurl); now intros [= <-]].
    destruct (decide (given c flSubsID)) as [Hsub|Hsub];
      [run_step (checkFlag_given c flSubsID configured Hsub)
      |run_exit (checkFlag_missing c flSubsID Hsub); now intros [= <-]].
    destruct (decide (given c flSubsCert)) as [Hcert|Hcert];
      [discriminate
      |run_exit (checkFlag_missing c flSubsCert Hcert); now intros [= <-]].
  - unfold first_missing, client_flags, run, replicationStatus.
    run_step init_run.
    destruct (decide (given c flMgtURL)) as [Hurl|Hurl];
      [run_step (checkFlag_given c flMgtURL configured Hurl)
      |run_exit (checkFlag_missing c flMgtURL Hurl); now intros [= <-]].
    destruct (decide (given c flSubsID)) as [Hsub|Hsub];
      [run_step (checkFlag_given c flSubsID configured Hsub)
      |run_exit (checkFlag_missing c flSubsID Hsub); now intros [= <-]].
    destruct (decide (given c flSubsCert)) as [Hcert|Hcert];
      [discriminate
      |run_exit (checkFlag_missing c flSubsCert Hcert); now intros [= <-]].
  - intros cl Hc. pose proof Hc as (Hurl & Hsub & Hcert & _).
    unfold first_missing, extension_flags, run, replicationStatus.
    run_step init_run.
    run_step (checkFlag_given c flMgtURL configured Hurl).
    run_step (checkFlag_given c flSubsID configured Hsub).
    run_step (checkFlag_given c flSubsCert configured Hcert).
    run_step (mkClient_ready W c cl configured Hc).
    destruct (decide (given c flNamespace)) as [Hns|Hns];
      [run_step (checkFlag_given c flNamespace configured Hns)
      |run_exit (checkFlag_missing c flNamespace Hns); now intros [= <-]].
    destruct (decide (given c flName)) as [Hname|Hname];
      [run_step (checkFlag_given c flName configured Hname)
      |run_exit (checkFlag_missing c flName Hname); now intros [= <-]].
    destruct (decide (given c flVersion)) as [Hversion|Hversion];
      [discriminate
      |run_exit (checkFlag_missing c flVersion Hversion); now intros [= <-]].
  - intros Hin Hmiss.
    assert (Hnot : ~ exists cl, client_ready W c cl /\ extension_given c).
    { intros (cl & (Hurl & Hsub & Hcert & _) & Hns & Hname & Hversion).
      unfold unpublish_flags in Hin. simpl in Hin.
      destruct Hin as [<-|[<-|[<-|[<-|[<-|[<-|[]]]]]]]; contradiction. }
    destruct (replicationStatus_cases W c) as [Hr|[Hr1 Hr2]]; [contradiction|].
    destruct (unpublishVersion_cases W c) as [Hu|[Hu1 Hu2]]; [contradiction|].
    auto using local_calls.
Qed.

Lemma flags_checked_before_calls_witness :
  run (unpublishVersion Sample.good)
    (Sample.context EmptyString "cert.pem" false)
  = (Exit 1, [fatal [] (missing flNamespace)]) /\
  run (replicationStatus Sample.good)
    (Sample.context "Contoso.Ext" EmptyString false)
  = (Exit 1, [fatal [] (missing flSubsCert)]) /\
  run (replicationStatus Sample.good)
    (Sample.context EmptyString "cert.pem" false)
  = (Exit 1, [EvReadFile "cert.pem"; fatal [] (missing flNamespace)]) /\
  calls (run (replicationStatus Sample.good)
           (Sample.context EmptyString "cert.pem" false)).2 = [].
Proof.
  split_and!.
  - apply (flags_checked_before_calls Sample.good
             (Sample.context EmptyString "cert.pem" false) flNamespace).
    reflexivity.
  - apply (flags_checked_before_calls Sample.good
             (Sample.context "Contoso.Ext" EmptyString false) flSubsCert).
    reflexivity.
  - destruct (flags_checked_before_calls Sample.good
             (Sample.context EmptyString "cert.pem" false) flNamespace)
      as (_ & _ & H & _).
    apply (H _ (sample_client_ready _ _ _ _ _ _)). reflexivity.
  - destruct (flags_checked_before_calls Sample.good
             (Sample.context EmptyString "cert.pem" false) flNamespace)
      as (_ & _ & _ & H).
    apply H; [simpl; auto | vm_compute; intros Hg; now apply Hg].
Defined.

(** ** Calls and polling *)

(** C4, as stated, fails for [replication-status]: a run that completes has
    not polled any operation. *)
Lemma replication_status_does_not_poll :
  (run (replicationStatus Sample.good)
     (Sample.context "Contoso.Ext" "cert.pem" false)).1 = Ret tt /\
  ~ polls (run (replicationStatus Sample.good)
             (Sample.context "Contoso.Ext" "cert.pem" false)).2.
Proof.
  split; [vm_compute; reflexivity|].
  intros [op Hin]. vm_compute in Hin.
  repeat (destruct Hin as [Hin|Hin]; [discriminate|]). exact Hin.
Qed.

(** C4, amended: a run that completes had all its flags given, read the
    certificate first and made the client from it.  [unpublish-version] then
    called [UpdateExtension] with the manifest and polled the operation it
    got with [WaitForOperation], which reported completion: two calls.
    [replication-status] called [GetReplicationStatus] and nothing else: one
    call, and no polling. *)
Theorem completed_runs (W : World) (c : Context) :
  let ns := Context_String c (Name flNamespace) in
  let name := Context_String c (Name flName) in
  let version := Context_String c (Name flVersion) in
  let body := manifest ns name version (Context_Bool c (BoolFlag_Name flIsXMLExtension)) in
  let cert := EvReadFile (Context_String c (Name flSubsCert)) in
  ((run (unpublishVersion W) c).1 = Ret tt ->
   exists cl op,
     client_ready W c cl /\ extension_given c /\
     UpdateExtension W cl body = Ok op /\
     WaitForOperation W cl op = None /\
     head (run (unpublishVersion W) c).2 = Some cert /\
     calls (run (unpublishVersion W) c).2
     = [ReqUpdateExtension body; ReqWaitForOperation op]) /\
  ((run (replicationStatus W) c).1 = Ret tt ->
   exists cl rs,
     client_ready W c cl /\ extension_given c /\
     GetReplicationStatus W cl ns name version = Ok rs /\
     head (run (replicationStatus W) c).2 = Some cert /\
     calls (run (replicationStatus W) c).2
     = [ReqGetReplicationStatus ns name version] /\
     ~ polls (run (replicationStatus W) c).2).
Proof.
  cbv zeta. split.
  - destruct (unpublishVersion_cases W c) as [(cl & Hc & He)|[Hx _]];
      [|congruence].
    rewrite (unpublishVersion_updates W c cl Hc He). cbv zeta.
    destruct (UpdateExtension W cl _) as [op|err] eqn:Hop; [|discriminate].
    destruct (WaitForOperation W cl op) as [err|] eqn:Hw; [discriminate|].
    intros _. exists cl, op. rewrite Hw. split_and!; auto.
  - destruct (replicationStatus_cases W c) as [(cl & Hc & He)|[Hx _]];
      [|congruence].
    rewrite (replicationStatus_fetches W c cl Hc He). cbv zeta.
    destruct (GetReplicationStatus W cl _ _ _) as [rs|err] eqn:Hrs;
      [|discriminate].
    intros Hdone. exists cl, rs. split_and!; auto.
    + destruct (Context_Bool c (BoolFlag_Name flJSON)); [|reflexivity].
      destruct (json_MarshalIndent W _ _ _); reflexivity.
    + destruct (Context_Bool c (BoolFlag_Name flJSON)); [|reflexivity].
      destruct (json_MarshalIndent W _ _ _); reflexivity.
    + intros [op Hin].
      destruct (Context_Bool c (BoolFlag_Name flJSON));
        [destruct (json_MarshalIndent W _ _ _)|];
        simpl in Hin;
        repeat (destruct Hin as [Hin|Hin]; [discriminate|]); exact Hin.
Qed.

Lemma completed_runs_witness :
  (exists cl op,
      UpdateExtension Sample.good cl
        (manifest "Contoso.Ext" "Ext" "1.0" false) = Ok op /\
      calls (run (unpublishVersion Sample.good)
               (Sample.context "Contoso.Ext" "cert.pem" false)).2
      = [ReqUpdateExtension (manifest "Contoso.Ext" "Ext" "1.0" false);
         ReqWaitForOperation op]) /\
  calls (run (replicationStatus Sample.good)
           (Sample.context "Contoso.Ext" "cert.pem" false)).2
  = [ReqGetReplicationStatus "Contoso.Ext" "Ext" "1.0"].
Proof.
  destruct (completed_runs Sample.good
              (Sample.context "Contoso.Ext" "cert.pem" false)) as [Hu Hr].
  split.
  - destruct (Hu eq_refl) as (cl & op & _ & _ & Hop & _ & _ & Hcalls).
    exists cl, op. split; [exact Hop | exact Hcalls].
  - destruct (Hr eq_refl) as (cl & rs & _ & _ & _ & _ & Hcalls & _).
    exact Hcalls.
Defined.

Lemma local_no_call (pre post : list event) (r : request) :
  forallb is_local (pre ++ EvCall r :: post) = false.
Proof.
  induction pre as [|e pre IH]; simpl; [reflexivity|].
  rewrite IH. apply andb_false_r.
Qed.

(** C5: the remote calls of a command come one after the other: a call's
    return is the event after the call.  In [unpublish-version], when the
    polling of an operation starts, the one call made before it is the
    [UpdateExtension] request, and it has returned that operation's
    identifier without an error. *)
Theorem remote_calls_in_sequence (W : World) (c : Context) :
  sequential (run (replicationStatus W) c).2 = true /\
  sequential (run (unpublishVersion W) c).2 = true /\
  (forall pre op post,
      (run (unpublishVersion W) c).2
      = pre ++ EvCall (ReqWaitForOperation op) :: post ->
      exists body,
        calls pre = [ReqUpdateExtension body] /\
        In (EvReturn (RespUpdateExtension (Ok op))) pre).
Proof.
  split_and!.
  - destruct (replicationStatus_cases W c) as [(cl & Hc & He)|[_ Hl]];
      [|now apply local_sequential].
    rewrite (replicationStatus_fetches W c cl Hc He). cbv zeta.
    destruct (GetReplicationStatus W cl _ _ _) as [rs|err]; [|reflexivity].
    destruct (Context_Bool c (BoolFlag_Name flJSON)); [|reflexivity].
    destruct (json_MarshalIndent W _ _ _); reflexivity.
  - destruct (unpublishVersion_cases W c) as [(cl & Hc & He)|[_ Hl]];
      [|now apply local_sequential].
    rewrite (unpublishVersion_updates W c cl Hc He). cbv zeta.
    destruct (UpdateExtension W cl _) as [op|err]; [|reflexivity].
    destruct (WaitForOperation W cl op); reflexivity.
  - intros pre op post.
    destruct (unpublishVersion_cases W c) as [(cl & Hc & He)|[_ Hl]].
    + rewrite (unpublishVersion_updates W c cl Hc He). cbv zeta.
      destruct (UpdateExtension W cl _) as [op'|err].
      * destruct (WaitForOperation W cl op'); simpl; intros H;
          do 8 (try (destruct pre as [|? pre]; simplify_eq/=));
          eexists; split; [reflexivity | auto | reflexivity | auto].
      * simpl. intros H.
        do 5 (try (destruct pre as [|? pre]; simplify_eq/=)).
    + intros H. rewrite H, local_no_call in Hl. discriminate.
Qed.

Lemma remote_calls_in_sequence_witness :
  exists body,
    calls [EvReadFile "cert.pem";
           EvCall (ReqUpdateExtension (manifest "Contoso.Ext" "Ext" "1.0" false));
           EvReturn (RespUpdateExtension (Ok "op-1"));
           EvWrite Stderr
             (LogEntry InfoLevel [("x-ms-operation-id", "op-1")]
                "UpdateExtension operation started.")]
    = [ReqUpdateExtension body] /\
    In (EvReturn (RespUpdateExtension (Ok "op-1")))
      [EvReadFile "cert.pem";
       EvCall (ReqUpdateExtension (manifest "Contoso.Ext" "Ext" "1.0" false));
       EvReturn (RespUpdateExtension (Ok "op-1"));
       EvWrite Stderr
         (LogEntry InfoLevel [("x-ms-operation-id", "op-1")]
            "UpdateExtension operation started.")].
Proof.
  destruct (remote_calls_in_sequence Sample.good
              (Sample.context "Contoso.Ext" "cert.pem" false)) as (_ & _ & H).
  apply (H _ "op-1"
           [EvReturn (RespWaitForOperation None);
            EvWrite Stderr
              (LogEntry InfoLevel [("x-ms-operation-id", "op-1")]
                 "UpdateExtension operation finished.")]).
  vm_compute. reflexivity.
Defined.

(** ** Streams *)

Lemma run_from_any (lg : Logger) (cmd : Context -> M unit) (c : Context) :
  run_from lg cmd c = run cmd c.
Proof. reflexivity. Qed.

Lemma local_disciplined (t : list event) :
  forallb is_local t = true -> forallb disciplined t = true.
Proof.
  induction t as [|e t IH]; [reflexivity|]. simpl.
  intros [He Ht]%andb_prop. rewrite (IH Ht), andb_true_r.
  destruct e as [|[] []| |]; try discriminate; reflexivity.
Qed.

(** C10: however the logger was configured before [init], every log entry
    of the two commands goes to the standard error and only data goes to the
    standard output.  [unpublish-version] writes nothing to the standard
    output.  [replication-status], once it has fetched the statuses, has on
    the standard output exactly the statuses in the selected format: the
    table, or with the flag [json] the encoder's bytes (nothing when the
    encoder fails); a run that completes has written that one payload, and a
    run that did not fetch has written nothing. *)
Theorem streams_kept_apart (W : World) (c : Context) (lg : Logger) :
  let tr := (run_from lg (replicationStatus W) c).2 in
  let tu := (run_from lg (unpublishVersion W) c).2 in
  let fetched cl :=
    GetReplicationStatus W cl (Context_String c (Name flNamespace))
      (Context_String c (Name flName)) (Context_String c (Name flVersion)) in
  let table rs :=
    Data (tablewriter_render W ["Location"; "Status"]
            (table_data (Statuses rs))) in
  forallb disciplined tr = true /\
  forallb disciplined tu = true /\
  written Stdout tu = [] /\
  (written Stdout tr = [] \/
   exists cl rs,
     client_ready W c cl /\ fetched cl = Ok rs /\
     ((Context_Bool c (BoolFlag_Name flJSON) = true /\
       exists b, json_MarshalIndent W (Statuses rs) EmptyString "  " = Ok b /\
                 written Stdout tr = [Data b]) \/
      (Context_Bool c (BoolFlag_Name flJSON) = false /\
       written Stdout tr = [table rs]))) /\
  (forall cl rs,
      client_ready W c cl -> extension_given c -> fetched cl = Ok rs ->
      written Stdout tr
      = if Context_Bool c (BoolFlag_Name flJSON) then
          match json_MarshalIndent W (Statuses rs) EmptyString "  " with
          | Ok b => [Data b]
          | Err _ => []
          end
        else [table rs]) /\
  ((run_from lg (replicationStatus W) c).1 = Ret tt ->
   exists cl rs p,
     client_ready W c cl /\ fetched cl = Ok rs /\
     written Stdout tr = [p] /\
     (Context_Bool c (BoolFlag_Name flJSON) = true ->
      exists b, json_MarshalIndent W (Statuses rs) EmptyString "  " = Ok b /\
                p = Data b) /\
     (Context_Bool c (BoolFlag_Name flJSON) = false -> p = table rs)).
Proof.
  cbv zeta. rewrite !run_from_any.
  assert (Hu : forallb disciplined (run (unpublishVersion W) c).2 = true /\
               written Stdout (run (unpublishVersion W) c).2 = []).
  { destruct (unpublishVersion_cases W c) as [(cl & Hc & He)|[_ Hl]];
      [|auto using local_disciplined, local_stdout].
    rewrite (unpublishVersion_updates W c cl Hc He). cbv zeta.
    destruct (UpdateExtension W cl _) as [op|err]; [|split; reflexivity].
    destruct (WaitForOperation W cl op); split; reflexivity. }
  destruct Hu as [Hu1 Hu2].
  assert (Hfetch : forall cl rs,
    client_ready W c cl -> extension_given c ->
    GetReplicationStatus W cl (Context_String c (Name flNamespace))
      (Context_String c (Name flName)) (Context_String c (Name flVersion))
    = Ok rs ->
    written Stdout (run (replicationStatus W) c).2
    = if Context_Bool c (BoolFlag_Name flJSON) then
        match json_MarshalIndent W (Statuses rs) EmptyString "  " with
        | Ok b => [Data b]
        | Err _ => []
        end
      else [Data (tablewriter_render W ["Location"; "Status"]
                    (table_data (Statuses rs)))]).
  { intros cl rs Hc He Hrs.
    rewrite (replicationStatus_fetches W c cl Hc He). cbv zeta. rewrite Hrs.
    destruct (Context_Bool c (BoolFlag_Name flJSON)); [|reflexivity].
    destruct (json_MarshalIndent W _ _ _); reflexivity. }
  destruct (replicationStatus_cases W c) as [(cl & Hc & He)|[Hx Hl]].
  - split_and!; auto.
    + rewrite (replicationStatus_fetches W c cl Hc He). cbv zeta.
      destruct (GetReplicationStatus W cl _ _ _) as [rs|err];
        [destruct (Context_Bool c (BoolFlag_Name flJSON));
         [destruct (json_MarshalIndent W _ _ _)|]|];
        reflexivity.
    + destruct (GetReplicationStatus W cl (Context_String c (Name flNamespace))
                  (Context_String c (Name flName))
                  (Context_String c (Name flVersion))) as [rs|err] eqn:Hrs.
      * rewrite (Hfetch cl rs Hc He Hrs).
        destruct (Context_Bool c (BoolFlag_Name flJSON)) eqn:Hjson.
        -- destruct (json_MarshalIndent W _ _ _) as [b|err] eqn:Hb; [|now left].
           right. exists cl, rs. split_and!; auto. left. eauto.
        -- right. exists cl, rs. split_and!; auto.
      * left. rewrite (replicationStatus_fetches W c cl Hc He). cbv zeta.
        rewrite Hrs. reflexivity.
    + intros Hdone.
      rewrite (replicationStatus_fetches W c cl Hc He) in Hdone.
      cbv zeta in Hdone.
      destruct (GetReplicationStatus W cl (Context_String c (Name flNamespace))
                  (Context_String c (Name flName))
                  (Context_String c (Name flVersion))) as [rs|err] eqn:Hrs;
        [|discriminate].
      rewrite (Hfetch cl rs Hc He Hrs).
      destruct (Context_Bool c (BoolFlag_Name flJSON));
        [destruct (json_MarshalIndent W _ _ _) as [b|err] eqn:Hb;
         [|discriminate]|];
        eexists cl, rs, _; split_and!; eauto; try (intros [=]).
  - split_and!; auto using local_disciplined, local_stdout.
    rewrite Hx. discriminate.
Qed.

(** From a logger that writes to the standard output at the level of
    panics only, the statuses still are all there is on the standard output:
    the encoder's bytes with the flag [json], the table without. *)
Lemma streams_kept_apart_witness :
  written Stdout
    (run_from {| level := PanicLevel; out := Stdout |}
       (replicationStatus Sample.good)
       (Sample.context "Contoso.Ext" "cert.pem" true)).2
  = [Data "[]"] /\
  written Stdout
    (run_from {| level := PanicLevel; out := Stdout |}
       (replicationStatus Sample.good)
       (Sample.context "Contoso.Ext" "cert.pem" false)).2
  = [Data "LocationStatusEast USCompletedJapan EastInProgress"].
Proof.
  assert (Hn : "Contoso.Ext" <> EmptyString) by congruence.
  split.
  - pose proof (streams_kept_apart Sample.good
      (Sample.context "Contoso.Ext" "cert.pem" true)
      {| level := PanicLevel; out := Stdout |}) as (_ & _ & _ & _ & H & _).
    apply (H _ _ (sample_client_ready _ _ _ _ _ true)
             (sample_extension_given _ "cert.pem" true Hn) eq_refl).
  - pose proof (streams_kept_apart Sample.good
      (Sample.context "Contoso.Ext" "cert.pem" false)
      {| level := PanicLevel; out := Stdout |}) as (_ & _ & _ & _ & H & _).
    apply (H _ _ (sample_client_ready _ _ _ _ _ false)
             (sample_extension_given _ "cert.pem" false Hn) eq_refl).
Defined.

(** ** The manifest as an XML document *)

Lemma xrun_app (st : xstate) (a b : string) :
  xrun st (a +:+ b)
  = match xrun st a with
    | Some st' => xrun st' b
    | None => None
    end.
Proof.
  revert st; induction a as [|x a IH]; intros st; [reflexivity|].
  rewrite append_cons. simpl. destruct (xstep st x); [apply IH | reflexivity].
Qed.

Lemma plain_char_inv (c : ascii) :
  plain_char c = true ->
  Ascii.leb " " c = true /\ c <> "<"%char /\ c <> ">"%char /\ c <> "&"%char.
Proof.
  unfold plain_char. intros H.
  apply andb_prop in H as [H Hamp]. apply andb_prop in H as [H Hgt].
  apply andb_prop in H as [H Hlt]. apply andb_prop in H as [Hsp _].
  apply negb_true_iff, bool_decide_eq_false in Hamp, Hgt, Hlt. auto.
Qed.

(** Inside an element, a plain character is one more character of text. *)
Lemma xstep_plain (c : ascii) (acc : string) (f : frame) (stk : list frame)
    (r : option node) :
  plain_char c = true ->
  xstep {| xmode_of := XText acc; stack := f :: stk; root := r |} c
  = Some {| xmode_of := XText (snoc acc c); stack := f :: stk; root := r |}.
Proof.
  intros (Hsp & Hlt & Hgt & Hamp)%plain_char_inv.
  unfold xstep, is_xml_char. rewrite Hsp. simpl.
  now rewrite !decide_False by assumption.
Qed.

Lemma xrun_plain (s acc : string) (f : frame) (stk : list frame)
    (r : option node) :
  plain_text s = true ->
  xrun {| xmode_of := XText acc; stack := f :: stk; root := r |} s
  = Some {| xmode_of := XText (acc +:+ s); stack := f :: stk; root := r |}.
Proof.
  revert acc; induction s as [|c s IH]; intros acc Hs.
  - now rewrite append_empty_r.
  - simpl in Hs. apply andb_prop in Hs as [Hc Hs].
    simpl. rewrite (xstep_plain _ _ _ _ _ Hc), (IH _ Hs).
    unfold snoc. now rewrite append_assoc.
Qed.

(** The reader's result on a closed piece of text, by computation. *)
Ltac xrun_closed :=
  match goal with
  | |- context [xrun ?st ?s] =>
      let r := eval vm_compute in (xrun st s) in
      replace (xrun st s) with r by (vm_compute; reflexivity);
      cbv beta iota
  end.

Ltac xrun_segment := rewrite xrun_app; xrun_closed.
Ltac xrun_value H := rewrite xrun_app, (xrun_plain _ _ _ _ _ H); cbv beta iota.

(** With plain values the manifest is a well-formed document whose root
    [ExtensionImage] has the expected elements, in their order. *)
Lemma manifest_elements_plain (ns name version : string) (isXMLExtension : bool) :
  ns <> EmptyString -> name <> EmptyString -> version <> EmptyString ->
  plain_text ns = true -> plain_text name = true -> plain_text version = true ->
  manifest_elements (manifest ns name version isXMLExtension)
  = Some (manifest_fields ns name version isXMLExtension).
Proof.
  intros Hns Hname Hversion Pns Pname Pversion.
  destruct ns as [|a1 ns]; [contradiction|].
  destruct name as [|a2 name]; [contradiction|].
  destruct version as [|a3 version]; [contradiction|].
  unfold manifest_elements, xml_parse, manifest.
  xrun_segment. xrun_value Pns.
  xrun_segment. xrun_value Pname.
  xrun_segment. xrun_value Pversion.
  destruct isXMLExtension; xrun_closed; cbn;
    rewrite !append_empty_r; reflexivity.
Qed.

Lemma local_in (t : list event) (e : event) :
  forallb is_local t = true -> In e t -> is_local e = true.
Proof.
  intros H Hin. rewrite forallb_forall in H. auto.
Qed.

(** The one request [unpublish-version] sends to [UpdateExtension] carries
    the manifest of the three flags, which are then given. *)
Lemma update_request_body (W : World) (c : Context) (body : bytes) :
  In (EvCall (ReqUpdateExtension body)) (run (unpublishVersion W) c).2 ->
  extension_given c /\
  body = manifest (Context_String c (Name flNamespace))
           (Context_String c (Name flName)) (Context_String c (Name flVersion))
           (Context_Bool c (BoolFlag_Name flIsXMLExtension)).
Proof.
  destruct (unpublishVersion_cases W c) as [(cl & Hc & He)|[_ Hl]].
  - rewrite (unpublishVersion_updates W c cl Hc He). cbv zeta.
    intros Hin. split; [exact He|].
    destruct (UpdateExtension W cl _) as [op|err];
      [destruct (WaitForOperation W cl op)|];
      simpl in Hin;
      repeat (destruct Hin as [Hin|Hin]; [try discriminate|]);
      try contradiction; simpl; congruence.
  - intros Hin. apply (local_in _ _ Hl) in Hin. discriminate.
Qed.

(** C1, as stated, fails: the values are put into the manifest as they are,
    and with a namespace holding a [<] the request is sent with a body that
    is not a well-formed document. *)
Lemma manifest_broken_by_markup :
  In (EvCall (ReqUpdateExtension (manifest "a<b" "Ext" "1.0" false)))
    (run (unpublishVersion Sample.good)
       (Sample.context "a<b" "cert.pem" false)).2 /\
  xml_parse (manifest "a<b" "Ext" "1.0" false) = None /\
  ~ carries_values (manifest "a<b" "Ext" "1.0" false) "a<b" "Ext" "1.0".
Proof.
  split_and!.
  - vm_compute. right. left. reflexivity.
  - vm_compute. reflexivity.
  - intros (elems & H & _). vm_compute in H. discriminate.
Qed.

(** C1, amended: the body of every request to [UpdateExtension] is the
    manifest template with the namespace, name and version of the command
    line in place; when the three values are of printable ASCII characters
    other than [<], [>], [&], it is a well-formed [ExtensionImage] document whose
    [ProviderNameSpace], [Type] and [Version] elements hold exactly those
    values. *)
Theorem manifest_carries_plain_values (W : World) (c : Context) (body : bytes) :
  let ns := Context_String c (Name flNamespace) in
  let name := Context_String c (Name flName) in
  let version := Context_String c (Name flVersion) in
  In (EvCall (ReqUpdateExtension body)) (run (unpublishVersion W) c).2 ->
  body = manifest ns name version (Context_Bool c (BoolFlag_Name flIsXMLExtension)) /\
  (plain_text ns = true -> plain_text name = true ->
   plain_text version = true ->
   carries_values body ns name version).
Proof.
  cbv zeta. intros ((Hns & Hname & Hversion) & ->)%update_request_body.
  split; [reflexivity|]. intros Pns Pname Pversion.
  eexists. split; [now apply manifest_elements_plain|].
  destruct (Context_Bool c (BoolFlag_Name flIsXMLExtension)); split_and!; reflexivity.
Qed.

Lemma manifest_carries_plain_values_witness :
  carries_values (manifest "Contoso.Ext" "Ext" "1.0" false)
    "Contoso.Ext" "Ext" "1.0".
Proof.
  destruct (manifest_carries_plain_values Sample.good
              (Sample.context "Contoso.Ext" "cert.pem" false)
              (manifest "Contoso.Ext" "Ext" "1.0" false)) as [_ H].
  - vm_compute. right. left. reflexivity.
  - apply H; reflexivity.
Defined.

(** C9, as stated, fails: a namespace that closes its own element can bring
    elements of its own.  With the flag [is-xml-extension] set the request
    is sent with a well-formed manifest that has an [IsJsonExtension]
    element set to true, and it stands before [Type]. *)
Lemma manifest_shape_broken_by_markup :
  Context_Bool (Sample.context Sample.injected "cert.pem" true)
    (BoolFlag_Name flIsXMLExtension) = true /\
  In (EvCall (ReqUpdateExtension (manifest Sample.injected "Ext" "1.0" true)))
    (run (unpublishVersion Sample.good)
       (Sample.context Sample.injected "cert.pem" true)).2 /\
  manifest_elements (manifest Sample.injected "Ext" "1.0" true)
  = Some [("ProviderNameSpace", Some "x"); ("IsJsonExtension", Some "true");
          ("ProviderNameSpace", Some "y"); ("Type", Some "Ext");
          ("Version", Some "1.0"); ("IsInternalExtension", Some "true")] /\
  ~ manifest_shape (manifest Sample.injected "Ext" "1.0" true) true.
Proof.
  split_and!.
  - reflexivity.
  - vm_compute. right. left. reflexivity.
  - vm_compute. reflexivity.
  - intros (elems & H & Hnames & _). vm_compute in H.
    injection H as <-. discriminate.
Qed.

(** C9, amended: when the namespace, name and version are of printable
    ASCII characters other than [<], [>], [&], the manifest sent is a well-formed
    document whose elements are [ProviderNameSpace], [Type], [Version],
    [IsInternalExtension] and then, exactly when the flag [is-xml-extension]
    is not set, [IsJsonExtension], in this order, with
    [IsInternalExtension] and [IsJsonExtension] set to true. *)
Theorem manifest_shape_for_plain_values (W : World) (c : Context)
    (body : bytes) :
  In (EvCall (ReqUpdateExtension body)) (run (unpublishVersion W) c).2 ->
  plain_text (Context_String c (Name flNamespace)) = true ->
  plain_text (Context_String c (Name flName)) = true ->
  plain_text (Context_String c (Name flVersion)) = true ->
  manifest_shape body (Context_Bool c (BoolFlag_Name flIsXMLExtension)).
Proof.
  intros ((Hns & Hname & Hversion) & ->)%update_request_body Pns Pname Pversion.
  eexists. split; [now apply manifest_elements_plain|].
  destruct (Context_Bool c (BoolFlag_Name flIsXMLExtension)); split_and!; reflexivity.
Qed.

Lemma manifest_shape_for_plain_values_witness :
  manifest_shape (manifest "Contoso.Ext" "Ext" "1.0" true) true /\
  manifest_shape (manifest "Contoso.Ext" "Ext" "1.0" false) false.
Proof.
  split.
  - apply (manifest_shape_for_plain_values Sample.good
             (Sample.context "Contoso.Ext" "cert.pem" true)); try reflexivity.
    vm_compute. right. left. reflexivity.
  - apply (manifest_shape_for_plain_values Sample.good
             (Sample.context "Contoso.Ext" "cert.pem" false)); try reflexivity.
    vm_compute. right. left. reflexivity.
Defined.

(** ** Beyond the two commands' main paths *)

(** Closes a branch in which the run has stopped with the entry [msg] after
    the events [pre], for the reason [why]. *)
Ltac stopped pre msg why :=
  intros [= <- <-]; right; exists pre, msg;
  split_and!; [reflexivity | reflexivity | auto | why].

Ltac flag_missing fl H :=
  left; exists fl; split_and!; [unfold unpublish_flags; simpl; auto 10 | exact H | reflexivity].

(** A run of [replication-status] has its client ready and its extension
    named, or it has stopped: exit status 1 after one fatal entry, with at
    most the read of the certificate before it. *)
Lemma replicationStatus_stops (W : World) (c : Context)
    (o : outcome unit) (t : list event) :
  run (replicationStatus W) c = (o, t) ->
  (exists cl, client_ready W c cl /\ extension_given c) \/
  exists pre msg,
    o = Exit 1 /\ t = pre ++ [fatal [] msg] /\
    (pre = [] \/ pre = [EvReadFile (Context_String c (Name flSubsCert))]) /\
    startup_failure W c msg.
Proof.
  unfold run, replicationStatus. run_step init_run.
  destruct (decide (given c flMgtURL)) as [Hurl|Hurl];
    [run_step (checkFlag_given c flMgtURL configured Hurl)
    |run_exit (checkFlag_missing c flMgtURL Hurl);
     stopped (@nil event) (missing flMgtURL) ltac:(flag_missing flMgtURL Hurl)].
  destruct (decide (given c flSubsID)) as [Hsub|Hsub];
    [run_step (checkFlag_given c flSubsID configured Hsub)
    |run_exit (checkFlag_missing c flSubsID Hsub);
     stopped (@nil event) (missing flSubsID) ltac:(flag_missing flSubsID Hsub)].
  destruct (decide (given c flSubsCert)) as [Hcert|Hcert];
    [run_step (checkFlag_given c flSubsCert configured Hcert)
    |run_exit (checkFlag_missing c flSubsCert Hcert);
     stopped (@nil event) (missing flSubsCert)
       ltac:(flag_missing flSubsCert Hcert)].
  pose proof (mkClient_run W (Context_String c (Name flMgtURL))
    (Context_String c (Name flSubsID)) (Context_String c (Name flSubsCert)))
    as Hmk.
  set (cert := Context_String c (Name flSubsCert)) in *.
  destruct (value (readCert W cert) std) as [[b|err]|code] eqn:Hread.
  - destruct (NewClient W _ _ b) as [cl|err] eqn:Hnew.
    + run_step Hmk.
      destruct (decide (given c flNamespace)) as [Hns|Hns];
        [|run_exit (checkFlag_missing c flNamespace Hns);
          stopped [EvReadFile cert] (missing flNamespace)
            ltac:(flag_missing flNamespace Hns)].
      run_step (checkFlag_given c flNamespace configured Hns).
      destruct (decide (given c flName)) as [Hname|Hname];
        [|run_exit (checkFlag_missing c flName Hname);
          stopped [EvReadFile cert] (missing flName)
            ltac:(flag_missing flName Hname)].
      run_step (checkFlag_given c flName configured Hname).
      destruct (decide (given c flVersion)) as [Hversion|Hversion];
        [|run_exit (checkFlag_missing c flVersion Hversion);
          stopped [EvReadFile cert] (missing flVersion)
            ltac:(flag_missing flVersion Hversion)].
      intros _. left. exists cl. unfold client_ready, extension_given.
      fold cert. eauto 10.
    + run_exit Hmk.
      stopped [EvReadFile cert] ("Cannot create client: " +:+ err)
        ltac:(right; right; unfold startup_failure; fold cert; eauto 10).
  - run_exit Hmk.
    stopped [EvReadFile cert]
      ("Cannot read certificate " +:+ cert +:+ ": " +:+ err)
      ltac:(right; left; fold cert; eauto).
  - now apply readCert_returns in Hread.
Qed.

Lemma unpublishVersion_stops (W : World) (c : Context)
    (o : outcome unit) (t : list event) :
  run (unpublishVersion W) c = (o, t) ->
  (exists cl, client_ready W c cl /\ extension_given c) \/
  exists pre msg,
    o = Exit 1 /\ t = pre ++ [fatal [] msg] /\
    (pre = [] \/ pre = [EvReadFile (Context_String c (Name flSubsCert))]) /\
    startup_failure W c msg.
Proof.
  unfold run, unpublishVersion. run_step init_run.
  destruct (decide (given c flNamespace)) as [Hns|Hns];
    [run_step (checkFlag_given c flNamespace configured Hns)
    |run_exit (checkFlag_missing c flNamespace Hns);
     stopped (@nil event) (missing flNamespace)
       ltac:(flag_missing flNamespace Hns)].
  destruct (decide (given c flName)) as [Hname|Hname];
    [run_step (checkFlag_given c flName configured Hname)
    |run_exit (checkFlag_missing c flName Hname);
     stopped (@nil event) (missing flName) ltac:(flag_missing flName Hname)].
  destruct (decide (given c flVersion)) as [Hversion|Hversion];
    [run_step (checkFlag_given c flVersion configured Hversion)
    |run_exit (checkFlag_missing c flVersion Hversion);
     stopped (@nil event) (missing flVersion)
       ltac:(flag_missing flVersion Hversion)].
  rewrite manifest_template_parse, manifest_template_execute.
  destruct (decide (given c flMgtURL)) as [Hurl|Hurl];
    [run_step (checkFlag_given c flMgtURL configured Hurl)
    |run_exit (checkFlag_missing c flMgtURL Hurl);
     stopped (@nil event) (missing flMgtURL) ltac:(flag_missing flMgtURL Hurl)].
  destruct (decide (given c flSubsID)) as [Hsub|Hsub];
    [run_step (checkFlag_given c flSubsID configured Hsub)
    |run_exit (checkFlag_missing c flSubsID Hsub);
     stopped (@nil event) (missing flSubsID) ltac:(flag_missing flSubsID Hsub)].
  destruct (decide (given c flSubsCert)) as [Hcert|Hcert];
    [run_step (checkFlag_given c flSubsCert configured Hcert)
    |run_exit (checkFlag_missing c flSubsCert Hcert);
     stopped (@nil event) (missing flSubsCert)
       ltac:(flag_missing flSubsCert Hcert)].
  pose proof (mkClient_run W (Context_String c (Name flMgtURL))
    (Context_String c (Name flSubsID)) (Context_String c (Name flSubsCert)))
    as Hmk.
  set (cert := Context_String c (Name flSubsCert)) in *.
  destruct (value (readCert W cert) std) as [[b|err]|code] eqn:Hread.
  - destruct (NewClient W _ _ b) as [cl|err] eqn:Hnew.
    + intros _. left. exists cl. unfold client_ready, extension_given.
      fold cert. eauto 10.
    + run_exit Hmk.
      stopped [EvReadFile cert] ("Cannot create client: " +:+ err)
        ltac:(right; right; unfold startup_failure; fold cert; eauto 10).
  - run_exit Hmk.
    stopped [EvReadFile cert]
      ("Cannot read certificate " +:+ cert +:+ ": " +:+ err)
      ltac:(right; left; fold cert; eauto).
  - now apply readCert_returns in Hread.
Qed.

Ltac no_fatal :=
  let Hin := fresh "Hin" in
  intros ? ? Hin; unfold fatal, update_events, fetch_events in Hin;
  simpl in Hin;
  repeat (destruct Hin as [Hin|Hin]; [discriminate|]); exact Hin.

Lemma stopped_no_fatal (c : Context) (pre : list event) :
  pre = [] \/ pre = [EvReadFile (Context_String c (Name flSubsCert))] ->
  forall fields msg, ~ In (fatal fields msg) pre.
Proof. intros [->| ->]; no_fatal. Qed.

(** X1: [mkClient], once [init] has run, reads the certificate file once and
    either returns the client [NewClient] made from the bytes [readCert]
    returned, or ends the process with status 1 after one fatal entry: the
    entry names the file and carries the error of the read, or carries the
    error of [NewClient]. *)
Theorem mkClient_outcomes (W : World) (mgtURL subscriptionID certFile : string) :
  (forall b cl,
      value (readCert W certFile) std = Ret (Ok b) ->
      NewClient W mgtURL subscriptionID b = Ok cl ->
      mkClient W mgtURL subscriptionID certFile configured
      = (Ret cl, configured, [EvReadFile certFile])) /\
  (forall err,
      value (readCert W certFile) std = Ret (Err err) ->
      mkClient W mgtURL subscriptionID certFile configured
      = (Exit 1, configured,
         [EvReadFile certFile;
          fatal [] ("Cannot read certificate " +:+ certFile +:+ ": " +:+ err)])) /\
  (forall b err,
      value (readCert W certFile) std = Ret (Ok b) ->
      NewClient W mgtURL subscriptionID b = Err err ->
      mkClient W mgtURL subscriptionID certFile configured
      = (Exit 1, configured,
         [EvReadFile certFile; fatal [] ("Cannot create client: " +:+ err)])).
Proof.
  split_and!.
  - intros b cl Hb Hcl. now rewrite mkClient_run, Hb, Hcl.
  - intros err Hb. now rewrite mkClient_run, Hb.
  - intros b err Hb Hcl. now rewrite mkClient_run, Hb, Hcl.
Qed.

Lemma mkClient_outcomes_witness :
  mkClient Sample.good "https://m" "sub" "cert.pfx" configured
  = (Ret "[CERTIFICATE][PRIVATE KEY]", configured, [EvReadFile "cert.pfx"]) /\
  mkClient Sample.good "https://m" "sub" "none" configured
  = (Exit 1, configured,
     [EvReadFile "none";
      fatal [] ("Cannot read certificate none: "
                +:+ "open none: no such file or directory")]).
Proof.
  destruct (mkClient_outcomes Sample.good "https://m" "sub" "cert.pfx")
    as (Hok & _ & _).
  destruct (mkClient_outcomes Sample.good "https://m" "sub" "none")
    as (_ & Hread & _).
  split.
  - apply (Hok "[CERTIFICATE][PRIVATE KEY]"); reflexivity.
  - apply (Hread "open none: no such file or directory"). reflexivity.
Defined.

(** X2: how a run of [unpublish-version] ends.  It completes without a
    fatal entry, or it exits with status 1 and a fatal entry is the last
    event and the only fatal one.  The entry's message tells the cause: a
    flag not given, the certificate not read, the client not made, or the
    error of [UpdateExtension] or of [WaitForOperation].  Building the
    manifest is never a cause. *)
Theorem unpublishVersion_ends (W : World) (c : Context) :
  let r := run (unpublishVersion W) c in
  let body := manifest (Context_String c (Name flNamespace))
                (Context_String c (Name flName))
                (Context_String c (Name flVersion))
                (Context_Bool c (BoolFlag_Name flIsXMLExtension)) in
  (r.1 = Ret tt /\ forall fields msg, ~ In (fatal fields msg) r.2) \/
  (r.1 = Exit 1 /\
   exists pre fields msg,
     r.2 = pre ++ [fatal fields msg] /\
     (forall fields' msg', ~ In (fatal fields' msg') pre) /\
     (startup_failure W c msg \/
      exists cl err,
        client_ready W c cl /\ msg = "UpdateExtension failed: " +:+ err /\
        (UpdateExtension W cl body = Err err \/
         exists op, UpdateExtension W cl body = Ok op /\
                    WaitForOperation W cl op = Some err))).
Proof.
  cbv zeta. destruct (run (unpublishVersion W) c) as [o t] eqn:Hrun.
  destruct (unpublishVersion_stops W c o t Hrun)
    as [(cl & Hc & He)|(pre & msg & -> & -> & Hpre & Hwhy)].
  - rewrite (unpublishVersion_updates W c cl Hc He) in Hrun. cbv zeta in Hrun.
    destruct (UpdateExtension W cl _) as [op|err] eqn:Hop.
    + destruct (WaitForOperation W cl op) as [err|] eqn:Hw;
        injection Hrun as <- <-.
      * right. split; [reflexivity|].
        eexists [_; _; _; _; _; _], _, _. split; [reflexivity|].
        split; [no_fatal|]. right. exists cl, err. eauto 10.
      * left. split; [reflexivity|]. no_fatal.
    + injection Hrun as <- <-.
      right. split; [reflexivity|].
      eexists [_; _; _], _, _. split; [reflexivity|].
      split; [no_fatal|]. right. exists cl, err. eauto 10.
  - right. split; [reflexivity|]. simpl.
    exists pre, [], msg. eauto using stopped_no_fatal.
Qed.

(** X3: how a run of [replication-status] ends.  It completes without a
    fatal entry, or it exits with status 1, has written nothing to the
    standard output, and a fatal entry is the last event and the only fatal
    one.  The entry's message tells the cause: a flag not given, the
    certificate not read, the client not made, the error of
    [GetReplicationStatus], or, with the flag [json], the error of the JSON
    encoder. *)
Theorem replicationStatus_ends (W : World) (c : Context) :
  let r := run (replicationStatus W) c in
  let fetched cl :=
    GetReplicationStatus W cl (Context_String c (Name flNamespace))
      (Context_String c (Name flName)) (Context_String c (Name flVersion)) in
  (r.1 = Ret tt /\ forall fields msg, ~ In (fatal fields msg) r.2) \/
  (r.1 = Exit 1 /\ written Stdout r.2 = [] /\
   exists pre msg,
     r.2 = pre ++ [fatal [] msg] /\
     (forall fields' msg', ~ In (fatal fields' msg') pre) /\
     (startup_failure W c msg \/
      exists cl err,
        client_ready W c cl /\
        ((fetched cl = Err err /\
          msg = "Cannot fetch replication status: " +:+ err) \/
         (exists rs,
            fetched cl = Ok rs /\
            Context_Bool c (BoolFlag_Name flJSON) = true /\
            json_MarshalIndent W (Statuses rs) EmptyString "  " = Err err /\
            msg = "failed to format as json: " +:+ err)))).
Proof.
  cbv zeta. destruct (run (replicationStatus W) c) as [o t] eqn:Hrun.
  destruct (replicationStatus_stops W c o t Hrun)
    as [(cl & Hc & He)|(pre & msg & -> & -> & Hpre & Hwhy)].
  - rewrite (replicationStatus_fetches W c cl Hc He) in Hrun.
    cbv zeta in Hrun.
    destruct (GetReplicationStatus W cl _ _ _) as [rs|err] eqn:Hrs.
    + destruct (Context_Bool c (BoolFlag_Name flJSON)) eqn:Hjson.
      * destruct (json_MarshalIndent W _ _ _) as [b|err] eqn:Hb;
          injection Hrun as <- <-.
        -- left. split; [reflexivity|]. no_fatal.
        -- right. split_and!; [reflexivity | reflexivity |].
           eexists [_; _; _; _], _. split; [reflexivity|]. split; [no_fatal|].
           right. exists cl, err. split; [exact Hc|]. right. eauto 10.
      * injection Hrun as <- <-. left. split; [reflexivity|]. no_fatal.
    + injection Hrun as <- <-.
      right. split_and!; [reflexivity | reflexivity |].
      eexists [_; _; _; _], _. split; [reflexivity|]. split; [no_fatal|].
      right. exists cl, err. eauto 10.
  - right. simpl. split_and!; [reflexivity | |].
    + destruct Hpre as [->| ->]; reflexivity.
    + exists pre, msg. eauto using stopped_no_fatal.
Qed.

(** X4: the remote calls of any run.  [replication-status] makes no call or
    the one [GetReplicationStatus] call for the extension of the command
    line: it never sends an update and never polls.  [unpublish-version]
    makes no call, the [UpdateExtension] call with the manifest, or that call
    followed by one [WaitForOperation] call. *)
Theorem calls_of_every_run (W : World) (c : Context) :
  let ns := Context_String c (Name flNamespace) in
  let name := Context_String c (Name flName) in
  let version := Context_String c (Name flVersion) in
  let body :=
    manifest ns name version (Context_Bool c (BoolFlag_Name flIsXMLExtension)) in
  (calls (run (replicationStatus W) c).2 = [] \/
   calls (run (replicationStatus W) c).2
   = [ReqGetReplicationStatus ns name version]) /\
  (calls (run (unpublishVersion W) c).2 = [] \/
   calls (run (unpublishVersion W) c).2 = [ReqUpdateExtension body] \/
   exists op,
     calls (run (unpublishVersion W) c).2
     = [ReqUpdateExtension body; ReqWaitForOperation op]).
Proof.
  cbv zeta. split.
  - destruct (replicationStatus_cases W c) as [(cl & Hc & He)|[_ Hl]];
      [|left; now apply local_calls].
    right. rewrite (replicationStatus_fetches W c cl Hc He). cbv zeta.
    destruct (GetReplicationStatus W cl _ _ _) as [rs|err]; [|reflexivity].
    destruct (Context_Bool c (BoolFlag_Name flJSON)); [|reflexivity].
    destruct (json_MarshalIndent W _ _ _); reflexivity.
  - destruct (unpublishVersion_cases W c) as [(cl & Hc & He)|[_ Hl]];
      [|left; now apply local_calls].
    right. rewrite (unpublishVersion_updates W c cl Hc He). cbv zeta.
    destruct (UpdateExtension W cl _) as [op|err]; [|left; reflexivity].
    right. exists op. destruct (WaitForOperation W cl op); reflexivity.
Qed.

(** X5: the only file a run of either command reads is the one the flag
    [subscription-cert] names, and it reads it at most once. *)
Theorem certificate_is_the_only_file_read (W : World) (c : Context) :
  let cert := Context_String c (Name flSubsCert) in
  (reads (run (replicationStatus W) c).2 = [] \/
   reads (run (replicationStatus W) c).2 = [cert]) /\
  (reads (run (unpublishVersion W) c).2 = [] \/
   reads (run (unpublishVersion W) c).2 = [cert]).
Proof.
  cbv zeta. split.
  - destruct (run (replicationStatus W) c) as [o t] eqn:Hrun.
    destruct (replicationStatus_stops W c o t Hrun)
      as [(cl & Hc & He)|(pre & msg & _ & -> & [->| ->] & _)]; auto.
    rewrite (replicationStatus_fetches W c cl Hc He) in Hrun.
    cbv zeta in Hrun. right.
    destruct (GetReplicationStatus W cl _ _ _) as [rs|err];
      [destruct (Context_Bool c (BoolFlag_Name flJSON));
       [destruct (json_MarshalIndent W _ _ _)|]|];
      injection Hrun as <- <-; reflexivity.
  - destruct (run (unpublishVersion W) c) as [o t] eqn:Hrun.
    destruct (unpublishVersion_stops W c o t Hrun)
      as [(cl & Hc & He)|(pre & msg & _ & -> & [->| ->] & _)]; auto.
    rewrite (unpublishVersion_updates W c cl Hc He) in Hrun.
    cbv zeta in Hrun. right.
    destruct (UpdateExtension W cl _) as [op|err];
      [destruct (WaitForOperation W cl op)|];
      injection Hrun as <- <-; reflexivity.
Qed.

Ltac by_first_char H :=
  apply (f_equal (fun s : string =>
                    match s with
                    | String x _ => Some x
                    | EmptyString => None
                    end)) in H;
  vm_compute in H; discriminate H.

Ltac not_missing Hin :=
  unfold fatal, fetch_events, update_events in Hin; simpl in Hin;
  repeat (destruct Hin as [Hin|Hin];
          [first [discriminate Hin
                 |let Hm := fresh "Hm" in
                  injection Hin as _ Hm; by_first_char Hm]
          |]);
  exact Hin.

(** X6: the flags [main] declares for a command are all its action asks
    for.  For each command of the table whose action is at hand, a command
    line that gives every string flag the command declares is never refused
    for a missing argument: no fatal entry of the run is the message of
    [checkFlag], whatever else the run ends with. *)
Theorem declared_flags_suffice (cmd : Command)
    (action : forall W : World, Context -> M unit) (W : World) (c : Context) :
  In cmd Commands -> cmd_Action cmd = Some action ->
  Forall (declared_given c) (cmd_Flags cmd) ->
  forall fields fl, ~ In (fatal fields (missing fl)) (run (action W) c).2.
Proof.
  intros Hin Hact Hgiven. unfold Commands in Hin. simpl in Hin.
  assert (Hall : forall fl, In fl unpublish_flags -> given c fl).
  { repeat (destruct Hin as [<-|Hin]; [simpl in Hact; try discriminate|]);
      try contradiction; simpl in Hgiven; decompose_Forall_hyps;
      unfold declared_given in *;
      intros fl Hfl; unfold unpublish_flags in Hfl; simpl in Hfl;
      repeat (destruct Hfl as [<-|Hfl]; [assumption|]); contradiction. }
  assert (Hstart : forall msg fl,
             startup_failure W c msg -> msg <> missing fl).
  { intros msg fl
      [(fl0 & Hfl0 & Hmiss & _)|[(err & _ & ->)|(b & err & _ & _ & ->)]].
    - destruct (Hmiss (Hall fl0 Hfl0)).
    - intros Hm. by_first_char Hm.
    - intros Hm. by_first_char Hm. }
  assert (Hearly : forall pre msg fields fl,
             pre = [] \/ pre = [EvReadFile (Context_String c (Name flSubsCert))] ->
             startup_failure W c msg ->
             ~ In (fatal fields (missing fl)) (pre ++ [fatal [] msg])).
  { intros pre msg fields fl Hpre Hwhy Hi.
    pose proof (Hstart msg fl Hwhy) as Hne.
    destruct Hpre as [->| ->]; simpl in Hi;
      repeat (destruct Hi as [Hi|Hi];
              [first [discriminate Hi
                     |injection Hi as _ Hm; now apply Hne]|]);
      exact Hi. }
  intros fields fl.
  repeat (destruct Hin as [<-|Hin]; [simpl in Hact; try discriminate|]);
    try contradiction; injection Hact as <-.
  - destruct (run (replicationStatus W) c) as [o t] eqn:Hrun.
    destruct (replicationStatus_stops W c o t Hrun)
      as [(cl & Hc & He)|(pre & msg & _ & -> & Hpre & Hwhy)];
      [|now apply Hearly].
    rewrite (replicationStatus_fetches W c cl Hc He) in Hrun.
    cbv zeta in Hrun.
    destruct (GetReplicationStatus W cl _ _ _) as [rs|err];
      [destruct (Context_Bool c (BoolFlag_Name flJSON));
       [destruct (json_MarshalIndent W _ _ _)|]|];
      injection Hrun as <- <-; intros Hi; not_missing Hi.
  - destruct (run (unpublishVersion W) c) as [o t] eqn:Hrun.
    destruct (unpublishVersion_stops W c o t Hrun)
      as [(cl & Hc & He)|(pre & msg & _ & -> & Hpre & Hwhy)];
      [|now apply Hearly].
    rewrite (unpublishVersion_updates W c cl Hc He) in Hrun.
    cbv zeta in Hrun.
    destruct (UpdateExtension W cl _) as [op|err];
      [destruct (WaitForOperation W cl op)|];
      injection Hrun as <- <-; intros Hi; not_missing Hi.
Qed.

(** With its seven declared flags given, [replication-status] on a readable
    certificate is not refused for an argument. *)
Lemma declared_flags_suffice_witness :
  ~ In (fatal [] (missing flNamespace))
      (run (replicationStatus Sample.good)
         (Sample.context "Contoso.Ext" "cert.pem" false)).2.
Proof.
  apply (declared_flags_suffice
           {| cmd_Name := "replication-status";
              cmd_Usage :=
                "Retrieves replication status for an uploaded extension package";
              cmd_Flags :=
                [FString flMgtURL; FString flSubsID; FString flSubsCert;
                 FString flNamespace; FString flName; FString flVersion;
                 FBool flJSON];
              cmd_Action := Some replicationStatus |} replicationStatus).
  - unfold Commands. simpl. auto 10.
  - reflexivity.
  - repeat constructor; vm_compute; congruence.
Defined.

(** X7: every entry [unpublish-version] logs is a fatal entry without
    fields, written before any operation exists, or carries in the field
    [x-ms-operation-id] the identifier [UpdateExtension] returned. *)
Theorem entries_carry_operation_id (W : World) (c : Context)
    (lvl : Level) (fields : list (string * string)) (msg : string) :
  In (lvl, fields, msg) (entries (run (unpublishVersion W) c).2) ->
  (lvl = FatalLevel /\ fields = []) \/
  exists op,
    fields = [("x-ms-operation-id", op)] /\
    In (EvReturn (RespUpdateExtension (Ok op))) (run (unpublishVersion W) c).2.
Proof.
  destruct (run (unpublishVersion W) c) as [o t] eqn:Hrun.
  destruct (unpublishVersion_stops W c o t Hrun)
    as [(cl & Hc & He)|(pre & m & _ & -> & [->| ->] & _)].
  - rewrite (unpublishVersion_updates W c cl Hc He) in Hrun.
    cbv zeta in Hrun.
    destruct (UpdateExtension W cl _) as [op|err];
      [destruct (WaitForOperation W cl op)|];
      injection Hrun as <- <-; simpl; intros Hin;
      repeat (destruct Hin as [Hin|Hin];
              [injection Hin as <- <- <-;
               first [left; split; reflexivity
                     |right; exists op; split; [reflexivity|simpl; auto 10]]
              |]);
      contradiction.
  - simpl. intros [[= <- <- <-]|[]]. left. split; reflexivity.
  - simpl. intros [[= <- <- <-]|[]]. left. split; reflexivity.
Qed.

Lemma entries_carry_operation_id_witness :
  exists op,
    [("x-ms-operation-id", "op-1")] = [("x-ms-operation-id", op)] /\
    In (EvReturn (RespUpdateExtension (Ok op)))
      (run (unpublishVersion Sample.good)
         (Sample.context "Contoso.Ext" "cert.pem" false)).2.
Proof.
  destruct (entries_carry_operation_id Sample.good
              (Sample.context "Contoso.Ext" "cert.pem" false)
              InfoLevel [("x-ms-operation-id", "op-1")]
              "UpdateExtension operation finished.") as [[H _]|H].
  - vm_compute. right. left. reflexivity.
  - discriminate H.
  - exact H.
Defined.

Lemma silent_ret {A} (a : A) : silent_at_info (ret a).
Proof. intros lg Hlg. split; [exact Hlg | intros f m []]. Qed.

Lemma silent_os_Exit {A} (code : Z) : silent_at_info (@os_Exit A code).
Proof. intros lg Hlg. split; [exact Hlg | intros f m []]. Qed.

Lemma silent_emit (e : event) : entries [e] = [] -> silent_at_info (emit e).
Proof.
  intros He lg Hlg. split; [exact Hlg|]. intros f m Hin.
  change (In (DebugLevel, f, m) (entries [e])) in Hin.
  rewrite He in Hin. destruct Hin.
Qed.

Lemma silent_log_entry (lvl : Level) (fields : list (string * string))
    (msg : string) :
  silent_at_info (log_entry lvl fields msg).
Proof.
  intros lg Hlg. unfold log_entry. rewrite Hlg.
  destruct lvl; simpl;
    (split; [exact Hlg|]); intros f m Hin; simpl in Hin;
    repeat (destruct Hin as [Hin|Hin]; [discriminate|]); exact Hin.
Qed.

Lemma silent_bind {A B} (m : M A) (k : A -> M B) :
  silent_at_info m -> (forall a, silent_at_info (k a)) ->
  silent_at_info (bind m k).
Proof.
  intros Hm Hk lg Hlg. unfold bind.
  destruct (Hm lg Hlg) as [Hl1 Ht1].
  destruct (m lg) as [[[a|code] lg1] t1]; simpl in *; [|auto].
  destruct (Hk a lg1 Hl1) as [Hl2 Ht2].
  destruct (k a lg1) as [[o lg2] t2]; simpl in *.
  split; [exact Hl2|]. intros f msg. unfold entries. rewrite omap_app.
  intros [Hin|Hin]%in_app_or; [apply (Ht1 f msg) | apply (Ht2 f msg)];
    exact Hin.
Qed.

Ltac silent :=
  repeat first
    [ apply silent_ret
    | apply silent_os_Exit
    | apply silent_log_entry
    | apply silent_emit; reflexivity
    | apply silent_bind; [|intros ?]
    | match goal with
      | |- silent_at_info (match ?x with _ => _ end) => destruct x
      | |- silent_at_info ((if ?x then _ else _) _) => destruct x; cbv beta
      end ].

Lemma silent_replicationStatus (W : World) (c : Context) :
  silent_at_info (replicationStatus W c).
Proof.
  unfold replicationStatus, checkFlag, mkClient, readCert, io_ReadFile,
    cl_GetReplicationStatus, printAsJSON, printAsTable, Render, Debug, Fatalf,
    Fatal.
  cbv zeta. silent.
Qed.

(** X8: [init] is what makes the debug entry of [replication-status]
    visible.  After [init], whatever the logger was, an entry of any level
    is written, and to the standard error, so that a run that reaches the
    fetch has logged its debug entry; from logrus's standard logger without
    [init], the action logs no debug entry on any of its paths. *)
Theorem init_enables_debug (W : World) (c : Context) (lg : Logger)
    (lvl : Level) (fields : list (string * string)) (msg : string) :
  (init >> log_entry lvl fields msg) lg
  = (Ret tt, configured, [EvWrite Stderr (LogEntry lvl fields msg)]) /\
  (forall cl,
      client_ready W c cl -> extension_given c ->
      In (DebugLevel, [], "Requesting replication status.")
        (entries (run (replicationStatus W) c).2)) /\
  no_debug (replicationStatus W c std).2.
Proof.
  split_and!.
  - destruct lvl; reflexivity.
  - intros cl Hc He. rewrite (replicationStatus_fetches W c cl Hc He).
    cbv zeta.
    destruct (GetReplicationStatus W cl _ _ _) as [rs|err];
      [destruct (Context_Bool c (BoolFlag_Name flJSON));
       [destruct (json_MarshalIndent W _ _ _)|]|];
      simpl; auto.
  - now apply (silent_replicationStatus W c std).
Qed.

Lemma init_enables_debug_witness :
  In (DebugLevel, [], "Requesting replication status.")
    (entries (run (replicationStatus Sample.good)
                (Sample.context "Contoso.Ext" "cert.pem" false)).2).
Proof.
  assert (Hn : "Contoso.Ext" <> EmptyString) by congruence.
  destruct (init_enables_debug Sample.good
              (Sample.context "Contoso.Ext" "cert.pem" false) std
              DebugLevel [] EmptyString) as (_ & H & _).
  apply (H _ (sample_client_ready _ _ _ _ _ _)
           (sample_extension_given _ "cert.pem" false Hn)).
Defined.

(** X9: the values can be read back from the manifest.  Two runs of
    [unpublish-version] that send the same body, both with plain values,
    were given the same namespace, name and version and the same setting of
    [is-xml-extension]. *)
Theorem same_manifest_same_values (W1 W2 : World) (c1 c2 : Context)
    (body : bytes) :
  In (EvCall (ReqUpdateExtension body)) (run (unpublishVersion W1) c1).2 ->
  In (EvCall (ReqUpdateExtension body)) (run (unpublishVersion W2) c2).2 ->
  Forall (fun c =>
            plain_text (Context_String c (Name flNamespace)) = true /\
            plain_text (Context_String c (Name flName)) = true /\
            plain_text (Context_String c (Name flVersion)) = true) [c1; c2] ->
  Context_String c1 (Name flNamespace) = Context_String c2 (Name flNamespace) /\
  Context_String c1 (Name flName) = Context_String c2 (Name flName) /\
  Context_String c1 (Name flVersion) = Context_String c2 (Name flVersion) /\
  Context_Bool c1 (BoolFlag_Name flIsXMLExtension)
  = Context_Bool c2 (BoolFlag_Name flIsXMLExtension).
Proof.
  intros ((Hns1 & Hname1 & Hversion1) & Hb1)%update_request_body
         ((Hns2 & Hname2 & Hversion2) & Hb2)%update_request_body Hplain.
  inversion_clear Hplain as [|? ? (Pns1 & Pname1 & Pversion1) Hrest].
  inversion_clear Hrest as [|? ? (Pns2 & Pname2 & Pversion2) _].
  assert (Hf : manifest_elements body = manifest_elements body) by reflexivity.
  rewrite Hb1 in Hf at 1. rewrite Hb2 in Hf at 1.
  rewrite !manifest_elements_plain in Hf by assumption.
  unfold manifest_fields in Hf.
  destruct (Context_Bool c1 _), (Context_Bool c2 _); simpl in Hf;
    injection Hf as Hns Hname Hversion; try discriminate; auto.
Qed.

Lemma same_manifest_same_values_witness :
  Context_String (Sample.context "Contoso.Ext" "cert.pem" false)
    (Name flNamespace)
  = Context_String (Sample.context "Contoso.Ext" "cert.pfx" false)
      (Name flNamespace).
Proof.
  destruct (same_manifest_same_values Sample.good Sample.good
              (Sample.context "Contoso.Ext" "cert.pem" false)
              (Sample.context "Contoso.Ext" "cert.pfx" false)
              (manifest "Contoso.Ext" "Ext" "1.0" false)) as (H & _).
  - vm_compute. right. left. reflexivity.
  - vm_compute. right. left. reflexivity.
  - repeat constructor.
  - exact H.
Defined.

(** X10: a PKCS#12 archive that decodes to no block is not an error for
    [readCert]: it returns the empty certificate, and it is [NewClient] that
    accepts or refuses it in [mkClient]. *)
Theorem empty_archive_gives_empty_certificate (W : World)
    (mgtURL subscriptionID certFile : string) (b rest : bytes) :
  ReadFile W certFile = Ok b -> pem_Decode W b = (None, rest) ->
  pkcs12_ToPEM W b EmptyString = Ok [] ->
  value (readCert W certFile) std = Ret (Ok EmptyString) /\
  mkClient W mgtURL subscriptionID certFile configured
  = match NewClient W mgtURL subscriptionID EmptyString with
    | Ok cl => (Ret cl, configured, [EvReadFile certFile])
    | Err err =>
        (Exit 1, configured,
         [EvReadFile certFile; fatal [] ("Cannot create client: " +:+ err)])
    end.
Proof.
  intros Hread Hpem Hp12.
  assert (Hv : value (readCert W certFile) std = Ret (Ok EmptyString)).
  { unfold value, readCert, io_ReadFile, bind, emit, ret. simpl.
    rewrite Hread, Hpem, Hp12. reflexivity. }
  split; [exact Hv|]. now rewrite mkClient_run, Hv.
Qed.

Lemma empty_archive_gives_empty_certificate_witness :
  mkClient empty_archive "https://m" "sub" "empty.pfx" configured
  = (Exit 1, configured,
     [EvReadFile "empty.pfx";
      fatal [] ("Cannot create client: " +:+ "tls: failed to find any PEM data")]).
Proof.
  exact (proj2 (empty_archive_gives_empty_certificate empty_archive
                  "https://m" "sub" "empty.pfx" "0" "0"
                  eq_refl eq_refl eq_refl)).
Defined.
